(** * scripts/quantize_model.py: a shallow embedding and its properties

    The script is a linear command-line driver: it imports the quantization
    library, resolves two paths from its own location, checks that the input
    model exists, calls the library's [quantize_dynamic] once and reports the
    sizes of the two files.

    The embedding keeps the script's effects explicit.  A run threads a state
    (the file system and a trace of what the script did) through a small
    state-and-exception monad.  Python floats are IEEE 754 binary64 values
    ([spec_float] at precision 53), so the size report is the text the
    interpreter prints.  Paths follow [posixpath]; signals that interrupt a
    run from outside (a [KeyboardInterrupt]) are not part of the model. *)

From Stdlib Require Import ZArith NArith QArith Qabs String Ascii List Lia Bool.
From Stdlib Require Import Floats.SpecFloat DecimalString DecimalN.
Import ListNotations.

Local Open Scope Z_scope.
Local Open Scope string_scope.

(** ** Python exceptions *)

(** The classes of [Exception] that occur in a run.  [OtherError] stands for
    any further subclass of [Exception] the library may raise. *)
Inductive exn_class : Type :=
  | ImportError
  | ModuleNotFoundError
  | OSError
  | ZeroDivisionError
  | OverflowError
  | OtherError (name : string).

(** An instance of [Exception]: its class and [str(e)]. *)
Record exn : Type := mkExn { exn_cls : exn_class; exn_text : string }.

(** [isinstance(e, ImportError)]: [ModuleNotFoundError] derives from it. *)
Definition is_ImportError (e : exn) : bool :=
  match exn_cls e with
  | ImportError | ModuleNotFoundError => true
  | _ => false
  end.

(** [isinstance(e, Exception)]: every [exn] is one. *)
Definition is_Exception (e : exn) : bool := true.

(** What a [raise] carries.  [SystemExit] derives from [BaseException] only,
    so no [except Exception] clause sees it. *)
Inductive raised : Type :=
  | SystemExit (code : Z)
  | Exc (e : exn).

Inductive result (A : Type) : Type :=
  | Ret (a : A)
  | Raise (r : raised).
Arguments Ret {A} a.
Arguments Raise {A} r.

(** ** Python numbers *)

Module PyFloat.

Definition prec : Z := 53.
Definition emax : Z := 1024.

(** A Python [float] is a binary64 value. *)
Definition float : Type := spec_float.

(** An [int] as an unrounded significand with exponent 0. *)
Definition exact (z : Z) : spec_float :=
  match z with
  | Z0 => S754_zero false
  | Zpos p => S754_finite false p 0
  | Zneg p => S754_finite true p 0
  end.

(** [float(n)] for an [int], as in [1 - x] and [x * 100]. *)
Definition of_int (n : Z) : float := binary_normalize prec emax n 0 false.

Definition division_by_zero : exn :=
  mkExn ZeroDivisionError "division by zero".

Definition result_too_large : exn :=
  mkExn OverflowError "integer division result too large for a float".

(** The text is CPython's up to 3.13; later releases drop the word
    [float]. *)
Definition float_division_by_zero : exn :=
  mkExn ZeroDivisionError "float division by zero".

(** [a / b] on two [int]s: the correctly rounded quotient of the two
    integers, [ZeroDivisionError] for a zero divisor and [OverflowError] when
    the quotient is beyond the range of a float. *)
Definition int_truediv (a b : Z) : result float :=
  if Z.eqb b 0 then Raise (Exc division_by_zero)
  else
    match SFdiv prec emax (exact a) (exact b) with
    | S754_infinity _ => Raise (Exc result_too_large)
    | q => Ret q
    end.

Definition is_zero (x : float) : bool :=
  match x with
  | S754_zero _ => true
  | _ => false
  end.

(** [x / y] on two [float]s. *)
Definition truediv (x y : float) : result float :=
  if is_zero y then Raise (Exc float_division_by_zero)
  else Ret (SFdiv prec emax x y).

Definition sub (x y : float) : float := SFsub prec emax x y.
Definition mul (x y : float) : float := SFmul prec emax x y.

Definition is_finite (x : float) : bool :=
  match x with
  | S754_zero _ | S754_finite _ _ _ => true
  | _ => false
  end.

Definition sign_bit (x : float) : bool :=
  match x with
  | S754_zero s | S754_infinity s | S754_finite s _ _ => s
  | S754_nan => false
  end.

(** A significand of exactly 53 bits. *)
Definition normal (m : positive) : Prop := 2 ^ 52 <= Zpos m < 2 ^ 53.

(** The exact rational value of a finite float, [(-1)^s * m * 2^e]. *)
Definition value (x : float) : Q :=
  match x with
  | S754_finite s m (Zneg k) =>
      Qmake (if s then Zneg m else Zpos m) (2 ^ k)%positive
  | S754_finite s m e =>
      inject_Z ((if s then Zneg m else Zpos m) * 2 ^ e)
  | _ => 0%Q
  end.

(** *** Fixed-point formatting, [format(x, ".pf")] *)

(** [num / den] rounded to the nearest integer, ties to even ([den > 0]). *)
Definition round_half_even (num den : Z) : Z :=
  let q := num / den in
  let r := num mod den in
  match Z.compare (2 * r) den with
  | Lt => q
  | Gt => q + 1
  | Eq => if Z.even q then q else q + 1
  end.

(** [m * 2^e * 10^p] rounded to an integer: the digits of [m * 2^e] that a
    format with [p] decimals keeps. *)
Definition scaled (p : nat) (m : positive) (e : Z) : Z :=
  match e with
  | Zneg k => round_half_even (Zpos m * 10 ^ Z.of_nat p) (2 ^ Zpos k)
  | _ => Zpos m * 2 ^ e * 10 ^ Z.of_nat p
  end.

Definition digits_of (n : Z) : string :=
  NilZero.string_of_uint (N.to_uint (Z.to_N n)).

Fixpoint zeros (k : nat) : string :=
  match k with
  | O => EmptyString
  | S k' => String "0" (zeros k')
  end.

(** The [p] decimals of a scaled magnitude, zero-padded on the left. *)
Definition decimals (p : nat) (n : Z) : string :=
  let s := digits_of (n mod 10 ^ Z.of_nat p) in
  zeros (p - String.length s) ++ s.

Definition fixed (p : nat) (n : Z) : string :=
  match p with
  | O => digits_of n
  | S _ => digits_of (n / 10 ^ Z.of_nat p) ++ "." ++ decimals p n
  end.

Definition sign_of (s : bool) : string := if s then "-" else "".

Definition format_f (p : nat) (x : float) : string :=
  match x with
  | S754_nan => "nan"
  | S754_infinity s => sign_of s ++ "inf"
  | S754_zero s => sign_of s ++ fixed p 0
  | S754_finite s m e => sign_of s ++ fixed p (scaled p m e)
  end.

(** The magnitude a float shows with [p] decimals, in units of [10^-p]. *)
Definition shown (p : nat) (x : float) : Z :=
  match x with
  | S754_finite _ m e => scaled p m e
  | _ => 0
  end.

(** The integer a [".0f"] rendering of a finite float denotes. *)
Definition shown_int (x : float) : Z :=
  if sign_bit x then - shown 0 x else shown 0 x.

End PyFloat.

(** ** Path manipulation ([os.path] on a POSIX host) *)

Module PosixPath.

Definition is_sep (c : ascii) : bool := Ascii.eqb c "/"%char.

(** On the reversed path, what is left of [p[:p.rfind('/') + 1]]. *)
Fixpoint upto_last_sep (r : list ascii) : list ascii :=
  match r with
  | [] => []
  | c :: r' => if is_sep c then r else upto_last_sep r'
  end.

(** On the reversed head, [head.rstrip('/')]. *)
Fixpoint strip_seps (r : list ascii) : list ascii :=
  match r with
  | [] => []
  | c :: r' => if is_sep c then strip_seps r' else r
  end.

(** [os.path.dirname]: the head loses its trailing separators unless it
    consists of separators only. *)
Definition dirname (p : string) : string :=
  let head := upto_last_sep (rev (list_ascii_of_string p)) in
  match strip_seps head with
  | [] => string_of_list_ascii (rev head)
  | stripped => string_of_list_ascii (rev stripped)
  end.

Definition starts_with_sep (s : string) : bool :=
  match s with
  | String c _ => is_sep c
  | EmptyString => false
  end.

Fixpoint ends_with_sep (s : string) : bool :=
  match s with
  | EmptyString => false
  | String c EmptyString => is_sep c
  | String _ s' => ends_with_sep s'
  end.

Definition is_empty (s : string) : bool :=
  match s with
  | EmptyString => true
  | _ => false
  end.

(** One turn of the loop of [os.path.join] over the further components. *)
Definition join_step (path b : string) : string :=
  if starts_with_sep b then b
  else if is_empty path || ends_with_sep path then path ++ b
  else path ++ "/" ++ b.

(** [os.path.join(a, *p)]. *)
Definition join (a : string) (p : list string) : string :=
  fold_left join_step p a.

(** A directory name that [join] extends with a separator: not empty and not
    ending in one (every directory but the root). *)
Definition plain_directory (p : string) : bool :=
  negb (is_empty p || ends_with_sep p).

(** A component that [join] appends as it is. *)
Definition plain_name (n : string) : bool :=
  negb (is_empty n) && negb (starts_with_sep n) && negb (ends_with_sep n).

End PosixPath.

(** ** The world a run happens in *)

(** [onnxruntime.quantization.QuantType], its 8-bit members. *)
Inductive QuantType : Type :=
  | QInt8
  | QUInt8.

(** [st_size] is an [off_t]: a signed 64-bit count of bytes, never
    negative. *)
Record off_t : Type := mkOff {
  off_val : N;
  off_bound : (off_val < 2 ^ 63)%N
}.

(** What [os.stat] answers for a path: the size of the file there, or the
    text of the [OSError] it raises. *)
Inductive stat_result : Type :=
  | Stat (st_size : off_t)
  | NoStat (strerror : string).

Definition filesys : Type := string -> stat_result.

(** The keyword arguments of one call of [quantize_dynamic]. *)
Record quantize_call : Type := mkCall {
  model_input : string;
  model_output : string;
  weight_type : QuantType
}.

(** The library routine, seen from the script: given the call and the file
    system, the file system it leaves and the exception it raises, if any. *)
Definition routine : Type := quantize_call -> filesys -> filesys * option exn.

Record world : Type := mkWorld {
  (** [os.path.abspath(__file__)] *)
  script_file : string;
  (** the exception the two [import] statements raise, if any *)
  import_failure : option exn;
  (** the file system when the script starts *)
  disk : filesys;
  (** the behaviour of [quantize_dynamic] *)
  quantize_impl : routine
}.

(** ** The state-and-exception monad of a run *)

Inductive event : Type :=
  | EvPrint (line : string)
  | EvExists (path : string)
  | EvGetsize (path : string)
  | EvQuantize (call : quantize_call).

Record state : Type := mkState {
  st_fs : filesys;
  st_trace : list event
}.

Definition M (A : Type) : Type := state -> result A * state.

Definition ret {A : Type} (a : A) : M A := fun s => (Ret a, s).

Definition bind {A B : Type} (c : M A) (k : A -> M B) : M B :=
  fun s =>
    match c s with
    | (Ret a, s') => k a s'
    | (Raise r, s') => (Raise r, s')
    end.

Declare Scope py_scope.
Delimit Scope py_scope with py.
Notation "x <- c ;; k" := (bind c (fun x => k))
  (at level 100, c at next level, right associativity) : py_scope.
Notation "c ;; k" := (bind c (fun _ => k))
  (at level 100, right associativity) : py_scope.
Local Open Scope py_scope.

Definition raise {A : Type} (r : raised) : M A := fun s => (Raise r, s).

(** A computed value, or the exception its computation raised. *)
Definition lift {A : Type} (r : result A) : M A := fun s => (r, s).

Definition log (ev : event) : M unit :=
  fun s => (Ret tt, mkState (st_fs s) (st_trace s ++ [ev])).

(** [try: body / except C as e: handler], where [catches] decides
    [isinstance(e, C)] for a class [C] below [Exception]. *)
Definition try_except {A : Type} (body : M A) (catches : exn -> bool)
    (handler : exn -> M A) : M A :=
  fun s =>
    match body s with
    | (Raise (Exc e), s') =>
        if catches e then handler e s' else (Raise (Exc e), s')
    | other => other
    end.

Definition print (line : string) : M unit := log (EvPrint line).

Definition sys_exit {A : Type} (code : Z) : M A := raise (SystemExit code).

(** [os.path.exists]: whether [os.stat] succeeds. *)
Definition os_path_exists (p : string) : M bool :=
  log (EvExists p) ;;
  fun s =>
    match st_fs s p with
    | Stat _ => (Ret true, s)
    | NoStat _ => (Ret false, s)
    end.

(** [os.path.getsize]: [os.stat(p).st_size]. *)
Definition os_path_getsize (p : string) : M Z :=
  log (EvGetsize p) ;;
  fun s =>
    match st_fs s p with
    | Stat n => (Ret (Z.of_N (off_val n)), s)
    | NoStat err => (Raise (Exc (mkExn OSError err)), s)
    end.

(** A line feed, the [\n] of the script's literals. *)
Definition nl : string := String (ascii_of_nat 10) EmptyString.

(** ** The script *)

Section Script.

Variable w : world.

(** [from onnxruntime.quantization import quantize_dynamic, QuantType] and
    [import onnx]. *)
Definition import_libraries : M unit :=
  match import_failure w with
  | Some e => raise (Exc e)
  | None => ret tt
  end.

Definition quantize_dynamic (model_input model_output : string)
    (weight_type : QuantType) : M unit :=
  let call := mkCall model_input model_output weight_type in
  log (EvQuantize call) ;;
  fun s =>
    let '(fs', failure) := quantize_impl w call (st_fs s) in
    let s' := mkState fs' (st_trace s) in
    match failure with
    | Some e => (Raise (Exc e), s')
    | None => (Ret tt, s')
    end.

Definition script_dir : string := PosixPath.dirname (script_file w).
Definition project_root : string := PosixPath.dirname script_dir.
Definition models_dir : string :=
  PosixPath.join project_root ["app"; "src"; "main"; "assets"; "models"].
Definition input_model : string :=
  PosixPath.join models_dir ["comictextdetector.pt.onnx"].
Definition output_model : string :=
  PosixPath.join models_dir ["comictextdetector_quantized.onnx"].

Definition main : M unit :=
  try_except import_libraries is_ImportError (fun _ =>
    print "❌ Missing required packages. Install them with:" ;;
    print "   pip install onnxruntime onnx" ;;
    sys_exit 1) ;;

  found <- os_path_exists input_model ;;
  (if negb found then
     print ("❌ Input model not found: " ++ input_model) ;;
     print (nl ++ "Please download the model first:") ;;
     print "1. Go to: https://github.com/zyddnys/manga-image-translator/releases" ;;
     print "2. Download: comictextdetector.pt.onnx" ;;
     print ("3. Place it in: " ++ models_dir) ;;
     sys_exit 1
   else ret tt) ;;

  input_bytes <- os_path_getsize input_model ;;
  input_size <- lift (PyFloat.int_truediv input_bytes (1024 * 1024)) ;;
  print ("📥 Input model: " ++ input_model) ;;
  print ("   Size: " ++ PyFloat.format_f 1 input_size ++ " MB") ;;

  print (nl ++ "⏳ Quantizing model (this may take a few minutes)...") ;;

  try_except
    (quantize_dynamic input_model output_model QUInt8 ;;

     output_bytes <- os_path_getsize output_model ;;
     output_size <- lift (PyFloat.int_truediv output_bytes (1024 * 1024)) ;;
     ratio <- lift (PyFloat.truediv output_size input_size) ;;
     let reduction :=
       PyFloat.mul (PyFloat.sub (PyFloat.of_int 1) ratio)
                   (PyFloat.of_int 100) in

     print (nl ++ "✅ Quantization complete!") ;;
     print ("📤 Output model: " ++ output_model) ;;
     print ("   Size: " ++ PyFloat.format_f 1 output_size ++ " MB") ;;
     print ("   Reduction: " ++ PyFloat.format_f 0 reduction ++ "%") ;;
     print (nl ++ "🎉 The app will automatically use the quantized model!"))
    is_Exception
    (fun e =>
       print (nl ++ "❌ Quantization failed: " ++ exn_text e) ;;
       sys_exit 1).

End Script.

(** ** The process *)

Record outcome : Type := mkOutcome {
  exit_code : Z;
  trace : list event;
  final_fs : filesys;
  (** the exception of the traceback on standard error, if the run died of one *)
  traceback : option exn
}.

(** [if __name__ == "__main__": main()], and how the interpreter ends:
    status 0 when [main] returns, the code of a [SystemExit], and status 1
    with a traceback for any other exception. *)
Definition run (w : world) : outcome :=
  match main w (mkState (disk w) []) with
  | (Ret _, s) => mkOutcome 0 (st_trace s) (st_fs s) None
  | (Raise (SystemExit code), s) => mkOutcome code (st_trace s) (st_fs s) None
  | (Raise (Exc e), s) => mkOutcome 1 (st_trace s) (st_fs s) (Some e)
  end.

(** The lines written to standard output, in order. *)
Fixpoint stdout (tr : list event) : list string :=
  match tr with
  | [] => []
  | EvPrint line :: tr' => line :: stdout tr'
  | _ :: tr' => stdout tr'
  end.

(** The calls of the library routine, in order. *)
Fixpoint calls (tr : list event) : list quantize_call :=
  match tr with
  | [] => []
  | EvQuantize c :: tr' => c :: calls tr'
  | _ :: tr' => calls tr'
  end.

(** ** Reading the printed report *)

(** Whether [needle] occurs in [hay]. *)
Fixpoint contains (hay needle : string) : bool :=
  if String.prefix needle hay then true
  else
    match hay with
    | EmptyString => false
    | String _ rest => contains rest needle
    end.

Fixpoint strip_prefix (pre s : string) : option string :=
  match pre, s with
  | EmptyString, _ => Some s
  | String a pre', String b s' =>
      if Ascii.eqb a b then strip_prefix pre' s' else None
  | String _ _, EmptyString => None
  end.

Definition digit_of (c : ascii) : option Z :=
  let n := nat_of_ascii c in
  if ((48 <=? n) && (n <=? 57))%nat then Some (Z.of_nat (n - 48)) else None.

(** The number of tenths a text such as ["85.3 MB"] denotes. *)
Fixpoint read_tenths (acc : Z) (started : bool) (s : string) : option Z :=
  match s with
  | EmptyString => None
  | String c s' =>
      if Ascii.eqb c "."%char then
        match s' with
        | String d unit_ =>
            if started && String.eqb unit_ " MB"
            then option_map (fun k => acc * 10 + k) (digit_of d)
            else None
        | EmptyString => None
        end
      else
        match digit_of c with
        | Some k => read_tenths (acc * 10 + k) true s'
        | None => None
        end
  end.

(** The sizes the [Size:] lines of a report show, in tenths of a MB. *)
Fixpoint printed_sizes (out : list string) : list (option Z) :=
  match out with
  | [] => []
  | line :: out' =>
      match strip_prefix "   Size: " line with
      | Some rest => read_tenths 0 false rest :: printed_sizes out'
      | None => printed_sizes out'
      end
  end.

(** The number a string of decimal digits denotes, read after [acc]. *)
Fixpoint uint_value (d : Decimal.uint) (acc : Z) : Z :=
  match d with
  | Decimal.Nil => acc
  | Decimal.D0 l => uint_value l (acc * 10 + 0)
  | Decimal.D1 l => uint_value l (acc * 10 + 1)
  | Decimal.D2 l => uint_value l (acc * 10 + 2)
  | Decimal.D3 l => uint_value l (acc * 10 + 3)
  | Decimal.D4 l => uint_value l (acc * 10 + 4)
  | Decimal.D5 l => uint_value l (acc * 10 + 5)
  | Decimal.D6 l => uint_value l (acc * 10 + 6)
  | Decimal.D7 l => uint_value l (acc * 10 + 7)
  | Decimal.D8 l => uint_value l (acc * 10 + 8)
  | Decimal.D9 l => uint_value l (acc * 10 + 9)
  end.

Definition nonempty (d : Decimal.uint) : bool :=
  match d with
  | Decimal.Nil => false
  | _ => true
  end.

(** ** The run, in the words of the specification *)

Definition exists_at (fs : filesys) (p : string) : bool :=
  match fs p with
  | Stat _ => true
  | NoStat _ => false
  end.

(** The one call the specification expects: input path, output path and the
    8-bit unsigned weight type. *)
Definition expected_call (w : world) : quantize_call :=
  mkCall (input_model w) (output_model w) QUInt8.

(** What the routine does when called that way on the initial disk. *)
Definition routine_outcome (w : world) : filesys * option exn :=
  quantize_impl w (expected_call w) (disk w).

(** A run succeeds when it reports the completed quantization. *)
Definition succeeds (o : outcome) : Prop :=
  In (nl ++ "✅ Quantization complete!") (stdout (trace o)).

(** [(1 - output_size / input_size) * 100], on floats. *)
Definition reduction_formula (output_size input_size : PyFloat.float)
  : PyFloat.float :=
  PyFloat.mul
    (PyFloat.sub (PyFloat.of_int 1)
       (SFdiv PyFloat.prec PyFloat.emax output_size input_size))
    (PyFloat.of_int 100).

(** The size of a file in MB, as the script computes it. *)
Definition megabytes (sz : off_t) : result PyFloat.float :=
  PyFloat.int_truediv (Z.of_N (off_val sz)) (1024 * 1024).

(** A size in tenths of a MB, rounded half to even. *)
Definition tenths (n : N) : Z :=
  PyFloat.round_half_even (10 * Z.of_N n) (1024 * 1024).

(** What the script itself may do to the file system: ask whether the input
    is there, ask for the size of either model, and hand both paths to the
    routine. *)
Definition read_only_event (w : world) (ev : event) : Prop :=
  match ev with
  | EvPrint _ => True
  | EvExists p => p = input_model w
  | EvGetsize p => p = input_model w \/ p = output_model w
  | EvQuantize c => c = expected_call w
  end.

(** ** The paths through [main] *)

Section Paths.

Variable w : world.

(** What the script has done when it hands over to the routine. *)
Definition trace_to_call (input_size : PyFloat.float) : list event :=
  [ EvExists (input_model w);
    EvGetsize (input_model w);
    EvPrint ("📥 Input model: " ++ input_model w);
    EvPrint ("   Size: " ++ PyFloat.format_f 1 input_size ++ " MB");
    EvPrint (nl ++ "⏳ Quantizing model (this may take a few minutes)...");
    EvQuantize (expected_call w) ].

(** What the [except Exception] handler prints. *)
Definition failure_line (e : exn) : string :=
  nl ++ "❌ Quantization failed: " ++ exn_text e.

(** The ways a run ends, one constructor for each path through [main]. *)
Inductive ends : outcome -> Prop :=
  | ends_missing_dependency e :
      import_failure w = Some e ->
      is_ImportError e = true ->
      ends (mkOutcome 1
              [ EvPrint "❌ Missing required packages. Install them with:";
                EvPrint "   pip install onnxruntime onnx" ]
              (disk w) None)
  | ends_import_crash e :
      import_failure w = Some e ->
      is_ImportError e = false ->
      ends (mkOutcome 1 [] (disk w) (Some e))
  | ends_missing_input err :
      import_failure w = None ->
      disk w (input_model w) = NoStat err ->
      ends (mkOutcome 1
              [ EvExists (input_model w);
                EvPrint ("❌ Input model not found: " ++ input_model w);
                EvPrint (nl ++ "Please download the model first:");
                EvPrint "1. Go to: https://github.com/zyddnys/manga-image-translator/releases";
                EvPrint "2. Download: comictextdetector.pt.onnx";
                EvPrint ("3. Place it in: " ++ models_dir w) ]
              (disk w) None)
  | ends_routine_raised sz input_size fs' e :
      import_failure w = None ->
      disk w (input_model w) = Stat sz ->
      megabytes sz = Ret input_size ->
      routine_outcome w = (fs', Some e) ->
      ends (mkOutcome 1
              (trace_to_call input_size ++ [ EvPrint (failure_line e) ])
              fs' None)
  | ends_missing_output sz input_size fs' err :
      import_failure w = None ->
      disk w (input_model w) = Stat sz ->
      megabytes sz = Ret input_size ->
      routine_outcome w = (fs', None) ->
      fs' (output_model w) = NoStat err ->
      ends (mkOutcome 1
              (trace_to_call input_size ++
               [ EvGetsize (output_model w);
                 EvPrint (failure_line (mkExn OSError err)) ])
              fs' None)
  | ends_empty_input sz fs' sz' output_size :
      import_failure w = None ->
      disk w (input_model w) = Stat sz ->
      off_val sz = 0%N ->
      routine_outcome w = (fs', None) ->
      fs' (output_model w) = Stat sz' ->
      megabytes sz' = Ret output_size ->
      ends (mkOutcome 1
              (trace_to_call (S754_zero false) ++
               [ EvGetsize (output_model w);
                 EvPrint (failure_line PyFloat.float_division_by_zero) ])
              fs' None)
  | ends_success sz input_size fs' sz' output_size :
      import_failure w = None ->
      disk w (input_model w) = Stat sz ->
      (0 < off_val sz)%N ->
      megabytes sz = Ret input_size ->
      routine_outcome w = (fs', None) ->
      fs' (output_model w) = Stat sz' ->
      megabytes sz' = Ret output_size ->
      ends (mkOutcome 0
              (trace_to_call input_size ++
               [ EvGetsize (output_model w);
                 EvPrint (nl ++ "✅ Quantization complete!");
                 EvPrint ("📤 Output model: " ++ output_model w);
                 EvPrint ("   Size: " ++ PyFloat.format_f 1 output_size ++ " MB");
                 EvPrint ("   Reduction: " ++
                          PyFloat.format_f 0 (reduction_formula output_size input_size)
                          ++ "%");
                 EvPrint (nl ++ "🎉 The app will automatically use the quantized model!") ])
              fs' None).

End Paths.

(** ** Ranges of the numbers of the report *)

(** A float in [[0, 1]]: [+0.0], or a normal float of exponent at least [lo]
    whose value is at most 1. *)
Definition unit_float (lo : Z) (x : PyFloat.float) : Prop :=
  x = S754_zero false \/
  exists m e, x = S754_finite false m e /\ PyFloat.normal m /\ lo <= e /\
              (e <= -53 \/ (e = -52 /\ Zpos m = 2 ^ 52)).

(** A float in [[0, 100]], by the same reading. *)
Definition percent_float (x : PyFloat.float) : Prop :=
  x = S754_zero false \/
  exists m e, x = S754_finite false m e /\ e < 0 /\ Zpos m <= 100 * 2 ^ (- e).

(** A size line that reads back as a number of tenths, none of them
    negative. *)
Definition is_size (o : option Z) : bool :=
  match o with
  | Some k => Z.leb 0 k
  | None => false
  end.

(** An event that only writes to the standard output. *)
Definition is_print (ev : event) : bool :=
  match ev with
  | EvPrint _ => true
  | _ => false
  end.

(** A name without any separator in it. *)
Definition sep_free (n : string) : bool :=
  forallb (fun c => negb (PosixPath.is_sep c)) (list_ascii_of_string n).

(** ** Sample worlds *)

Definition sample_script : string :=
  "/home/dev/MangaAutoScroller/scripts/quantize_model.py".
Definition sample_input : string :=
  "/home/dev/MangaAutoScroller/app/src/main/assets/models/comictextdetector.pt.onnx".
Definition sample_output : string :=
  "/home/dev/MangaAutoScroller/app/src/main/assets/models/comictextdetector_quantized.onnx".

Definition enoent : stat_result := NoStat "[Errno 2] No such file or directory".

Definition empty_disk : filesys := fun _ => enoent.

(** A disk holding only the input model. *)
Definition disk_with_input (sz : off_t) : filesys :=
  fun p => if String.eqb p sample_input then Stat sz else enoent.

(** A routine that writes a file of the given size to its output path. *)
Definition writes_output (sz : off_t) : routine :=
  fun c fs =>
    (fun p => if String.eqb p (model_output c) then Stat sz else fs p, None).


(** A routine that returns without writing anything. *)
Definition writes_nothing : routine := fun _ fs => (fs, None).

Definition size_full : off_t := mkOff 89478485 eq_refl.
Definition size_quantized : off_t := mkOff 23068672 eq_refl.
Definition size_1MiB : off_t := mkOff 1048576 eq_refl.
Definition size_zero : off_t := mkOff 0 eq_refl.

Definition no_onnxruntime : exn :=
  mkExn ModuleNotFoundError "No module named 'onnxruntime'".


(** The usual run: a model of 85.3 MB quantized to 22.0 MB. *)
Definition w_ok : world :=
  mkWorld sample_script None (disk_with_input size_full)
    (writes_output size_quantized).

(** The library is not installed; the model is in place. *)
Definition w_no_library : world :=
  mkWorld sample_script (Some no_onnxruntime) (disk_with_input size_full)
    (writes_output size_quantized).

(** Neither the library nor the model is there. *)
Definition w_nothing : world :=
  mkWorld sample_script (Some no_onnxruntime) empty_disk
    (writes_output size_quantized).

(** The library is installed, the model is missing. *)
Definition w_no_input : world :=
  mkWorld sample_script None empty_disk (writes_output size_quantized).

(** The routine writes an output as large as its input. *)
Definition w_same_size : world :=
  mkWorld sample_script None (disk_with_input size_1MiB)
    (writes_output size_1MiB).



(** The routine returns but leaves no output file. *)
Definition w_no_output : world :=
  mkWorld sample_script None (disk_with_input size_full) writes_nothing.

(** * Properties *)

(** ** The model on concrete inputs *)

Example dirname_of_script :
  PosixPath.dirname "/home/dev/MangaAutoScroller/scripts/quantize_model.py"
  = "/home/dev/MangaAutoScroller/scripts".
Proof. reflexivity. Qed.

Example dirname_under_root : PosixPath.dirname "/quantize_model.py" = "/".
Proof. reflexivity. Qed.

Example join_under_root : PosixPath.join "/" ["app"; "src"] = "/app/src".
Proof. reflexivity. Qed.

Example input_model_of_sample : input_model w_ok = sample_input.
Proof. reflexivity. Qed.

Example megabytes_of_full_model :
  megabytes size_full = Ret (S754_finite false 6004799480791040 (-46)).
Proof. reflexivity. Qed.

Example format_of_full_model :
  PyFloat.format_f 1 (S754_finite false 6004799480791040 (-46)) = "85.3".
Proof. reflexivity. Qed.

Example format_rounds_half_to_even :
  PyFloat.format_f 0 (S754_finite false 5 (-1)) = "2" /\
  PyFloat.format_f 0 (S754_finite false 7 (-1)) = "4".
Proof. split; reflexivity. Qed.

Example format_keeps_sign_of_zero :
  PyFloat.format_f 0 (S754_finite true 1 (-2)) = "-0".
Proof. reflexivity. Qed.

Example report_of_usual_run :
  exit_code (run w_ok) = 0 /\
  stdout (trace (run w_ok)) =
    [ "📥 Input model: " ++ sample_input;
      "   Size: 85.3 MB";
      nl ++ "⏳ Quantizing model (this may take a few minutes)...";
      nl ++ "✅ Quantization complete!";
      "📤 Output model: " ++ sample_output;
      "   Size: 22.0 MB";
      "   Reduction: 74%";
      nl ++ "🎉 The app will automatically use the quantized model!" ].
Proof. split; reflexivity. Qed.

(** The reduction is computed on floats: for 995 bytes out of 1000 it is a
    little above one half and shows as 1. *)
Example reduction_just_above_half :
  megabytes (mkOff 995 eq_refl) = Ret (S754_finite false 8752112557096960 (-63)) /\
  megabytes (mkOff 1000 eq_refl) = Ret (S754_finite false 8796093022208000 (-63)) /\
  PyFloat.format_f 0
    (reduction_formula (S754_finite false 8752112557096960 (-63))
                       (S754_finite false 8796093022208000 (-63))) = "1".
Proof. repeat split; reflexivity. Qed.

Example report_without_output :
  exit_code (run w_no_output) = 1 /\
  last (stdout (trace (run w_no_output))) "" =
    nl ++ "❌ Quantization failed: [Errno 2] No such file or directory".
Proof. split; reflexivity. Qed.

Local Close Scope string_scope.

(** ** Binary64 rounding *)

Lemma digits2_pos_size p : digits2_pos p = Pos.size p.
Proof. induction p; simpl; congruence. Qed.

Lemma Zdigits2_bounds m : 0 < m -> 2 ^ (Zdigits2 m - 1) <= m < 2 ^ Zdigits2 m.
Proof.
  destruct m as [|p|p]; try lia. intros _. simpl Zdigits2. rewrite digits2_pos_size.
  split.
  - pose proof (Pos.size_le p) as H.
    assert (Hs : (2 ^ Zpos (Pos.size p) <= 2 * Zpos p)).
    { assert (H0 : Zpos (2 ^ Pos.size p) <= Zpos (2 * p)) by (apply Pos2Z.pos_le_pos; exact H).
      rewrite Pos2Z.inj_pow, Pos2Z.inj_mul in H0. exact H0. }
    replace (Zpos (Pos.size p)) with (Z.succ (Zpos (Pos.size p) - 1)) in Hs by lia.
    rewrite Z.pow_succ_r in Hs by lia. lia.
  - pose proof (Pos.size_gt p) as H.
    assert (H0 : Zpos p < Zpos (2 ^ Pos.size p)) by (apply Pos2Z.pos_lt_pos; exact H).
    rewrite Pos2Z.inj_pow in H0. exact H0.
Qed.

Lemma Zdigits2_pos m : 0 < m -> 0 < Zdigits2 m.
Proof. destruct m; simpl; lia. Qed.

Lemma Zdigits2_le m k : 0 < m -> m < 2 ^ k -> Zdigits2 m <= k.
Proof.
  intros Hm Hk. pose proof (Zdigits2_bounds m Hm) as [Hlo _].
  destruct (Z_le_gt_dec (Zdigits2 m) k) as [|Hgt]; [assumption|exfalso].
  assert (2 ^ k <= 2 ^ (Zdigits2 m - 1)) by (apply Z.pow_le_mono_r; lia).
  lia.
Qed.

Lemma Zdigits2_ge m k : 0 <= k -> 2 ^ k <= m -> k + 1 <= Zdigits2 m.
Proof.
  intros Hk Hm. assert (0 < m) by (pose proof (Z.pow_pos_nonneg 2 k); lia).
  pose proof (Zdigits2_bounds m H) as [_ Hhi].
  destruct (Z_le_gt_dec (k + 1) (Zdigits2 m)) as [|Hgt]; [assumption|exfalso].
  assert (2 ^ Zdigits2 m <= 2 ^ k) by (apply Z.pow_le_mono_r; lia).
  lia.
Qed.

Lemma Zdigits2_shift m k :
  0 < m -> 0 <= k -> Zdigits2 (m * 2 ^ k) = Zdigits2 m + k.
Proof.
  intros Hm Hk. pose proof (Zdigits2_bounds m Hm) as [Hlo Hhi].
  pose proof (Zdigits2_pos m Hm) as Hd.
  assert (Hp : 0 < 2 ^ k) by (apply Z.pow_pos_nonneg; lia).
  apply Z.le_antisymm.
  - apply Zdigits2_le; [nia|]. rewrite Z.pow_add_r by lia.
    apply Z.mul_lt_mono_pos_r; assumption.
  - replace (Zdigits2 m + k) with ((Zdigits2 m - 1 + k) + 1) by lia.
    apply Zdigits2_ge; [lia|]. rewrite Z.pow_add_r by lia.
    apply Z.mul_le_mono_nonneg_r; lia.
Qed.

Lemma Zdigits2_normal m : PyFloat.normal m -> Zdigits2 (Zpos m) = 53.
Proof.
  intros [Hlo Hhi]. apply Z.le_antisymm.
  - apply Zdigits2_le; lia.
  - apply (Zdigits2_ge (Zpos m) 52); lia.
Qed.

Lemma shr_1_m mrs : 0 <= shr_m mrs -> shr_m (shr_1 mrs) = shr_m mrs / 2.
Proof.
  destruct mrs as [m r s]; simpl. intros Hm. rewrite <- Z.div2_div.
  destruct m as [|[p|p|]|p]; try lia; reflexivity.
Qed.

Lemma iter_pos_shr_m p : forall mrs,
  0 <= shr_m mrs -> shr_m (iter_pos shr_1 p mrs) = shr_m mrs / 2 ^ Zpos p.
Proof.
  induction p as [p IH|p IH|]; intros mrs Hm; simpl iter_pos.
  - assert (H1 : 0 <= shr_m (shr_1 mrs)) by (rewrite shr_1_m by assumption; apply Z.div_pos; lia).
    assert (H2 : 0 <= shr_m (iter_pos shr_1 p (shr_1 mrs)))
      by (rewrite IH by assumption; apply Z.div_pos; [assumption | apply Z.pow_pos_nonneg; lia]).
    rewrite IH, IH, shr_1_m by assumption.
    rewrite !Z.div_div by (try apply Z.pow_pos_nonneg; try apply Z.pow_nonneg; lia).
    f_equal. replace (Zpos p~1) with (1 + Zpos p + Zpos p) by lia.
    rewrite !Z.pow_add_r by lia. lia.
  - assert (H2 : 0 <= shr_m (iter_pos shr_1 p mrs))
      by (rewrite IH by assumption; apply Z.div_pos; [assumption | apply Z.pow_pos_nonneg; lia]).
    rewrite IH, IH by assumption.
    rewrite !Z.div_div by (try apply Z.pow_pos_nonneg; try apply Z.pow_nonneg; lia).
    f_equal. replace (Zpos p~0) with (Zpos p + Zpos p) by lia.
    rewrite !Z.pow_add_r by lia. lia.
  - rewrite shr_1_m by assumption. reflexivity.
Qed.

Lemma shr_spec mrs e n :
  0 <= shr_m mrs ->
  shr_m (fst (shr mrs e n)) = shr_m mrs / 2 ^ Z.max n 0 /\
  snd (shr mrs e n) = e + Z.max n 0.
Proof.
  intros Hm. destruct n as [|p|p]; simpl shr; simpl fst; simpl snd.
  - rewrite Z.max_id. simpl. rewrite Z.div_1_r. lia.
  - rewrite Z.max_l by lia. split; [apply iter_pos_shr_m; assumption | reflexivity].
  - rewrite Z.max_r by lia. simpl. rewrite Z.div_1_r. lia.
Qed.

Lemma shr_m_of_loc m l : shr_m (shr_record_of_loc m l) = m.
Proof. destruct l as [|[| |]]; reflexivity. Qed.

Lemma shr_fexp_spec prec emax m e l :
  0 <= m ->
  let k := Z.max (fexp prec emax (Zdigits2 m + e) - e) 0 in
  shr_m (fst (shr_fexp prec emax m e l)) = m / 2 ^ k /\
  snd (shr_fexp prec emax m e l) = e + k.
Proof.
  intros Hm k. unfold shr_fexp.
  pose proof (shr_spec (shr_record_of_loc m l) e (fexp prec emax (Zdigits2 m + e) - e)) as H.
  rewrite shr_m_of_loc in H. apply H. assumption.
Qed.

Lemma round_nearest_even_bounds m l : m <= round_nearest_even m l <= m + 1.
Proof. destruct l as [|[| |]]; simpl; try lia. destruct (Z.even m); lia. Qed.

Lemma binary_round_aux_normal sx mx ex lx :
  0 < mx -> 53 <= Zdigits2 mx -> -1021 <= ex -> Zdigits2 mx + ex <= 1023 ->
  exists m e,
    binary_round_aux PyFloat.prec PyFloat.emax sx mx ex lx = S754_finite sx m e /\
    PyFloat.normal m /\
    Zdigits2 mx + ex - 53 <= e <= Zdigits2 mx + ex - 52.
Proof.
  intros Hmx Hd53 Hex Hd. unfold binary_round_aux.
  pose proof (Zdigits2_bounds mx Hmx) as [Hlo Hhi].
  set (d := Zdigits2 mx) in *.
  destruct (shr_fexp_spec PyFloat.prec PyFloat.emax mx ex lx ltac:(lia)) as [Hm' He'].
  destruct (shr_fexp PyFloat.prec PyFloat.emax mx ex lx) as [mrs' e'].
  simpl fst in Hm'; simpl snd in He'. fold d in Hm', He'.
  assert (Hk : Z.max (fexp PyFloat.prec PyFloat.emax (d + ex) - ex) 0 = d - 53)
    by (unfold fexp, emin, PyFloat.prec, PyFloat.emax; lia).
  rewrite Hk in Hm', He'. clear Hk.
  assert (Hpow : 0 < 2 ^ (d - 53)) by (apply Z.pow_pos_nonneg; lia).
  assert (E1 : 2 ^ (d - 1) = 2 ^ (d - 53) * 2 ^ 52)
    by (rewrite <- Z.pow_add_r by lia; f_equal; lia).
  assert (E2 : 2 ^ d = 2 ^ (d - 53) * 2 ^ 53)
    by (rewrite <- Z.pow_add_r by lia; f_equal; lia).
  assert (Hm'lo : 2 ^ 52 <= shr_m mrs').
  { rewrite Hm'. apply Z.div_le_lower_bound; [assumption | lia]. }
  assert (Hm'hi : shr_m mrs' < 2 ^ 53).
  { rewrite Hm'. apply Z.div_lt_upper_bound; [assumption | lia]. }
  pose proof (round_nearest_even_bounds (shr_m mrs') (loc_of_shr_record mrs')) as Hr.
  set (m1 := round_nearest_even (shr_m mrs') (loc_of_shr_record mrs')) in *.
  change (2 ^ 52) with 4503599627370496 in *.
  change (2 ^ 53) with 9007199254740992 in *.
  assert (Hm1 : 0 < m1) by lia.
  pose proof (Zdigits2_bounds m1 Hm1) as [Hlo1 Hhi1].
  assert (Hd1 : Zdigits2 m1 <= 54)
    by (apply Zdigits2_le; [assumption | change (2 ^ 54) with 18014398509481984; lia]).
  assert (Hd1' : 53 <= Zdigits2 m1)
    by (apply (Zdigits2_ge m1 52); [lia | change (2 ^ 52) with 4503599627370496; lia]).
  destruct (shr_fexp_spec PyFloat.prec PyFloat.emax m1 e' loc_Exact ltac:(lia)) as [Hm'' He''].
  destruct (shr_fexp PyFloat.prec PyFloat.emax m1 e' loc_Exact) as [mrs'' e''].
  simpl fst in Hm''; simpl snd in He''.
  set (d1 := Zdigits2 m1) in *.
  assert (Hk : Z.max (fexp PyFloat.prec PyFloat.emax (d1 + e') - e') 0 = d1 - 53)
    by (unfold fexp, emin, PyFloat.prec, PyFloat.emax; lia).
  rewrite Hk in Hm'', He''. clear Hk.
  assert (Hres : 4503599627370496 <= shr_m mrs'' < 9007199254740992 /\
                 d + ex - 53 <= e'' <= d + ex - 52).
  { destruct (Z.eq_dec d1 53) as [H53|H53].
    - rewrite H53 in *. change (2 ^ (53 - 53)) with 1 in Hm''. rewrite Z.div_1_r in Hm''.
      change (2 ^ 53) with 9007199254740992 in Hhi1. lia.
    - assert (H54 : d1 = 54) by lia. rewrite H54 in *.
      change (2 ^ (54 - 53)) with 2 in Hm''.
      change (2 ^ (54 - 1)) with 9007199254740992 in Hlo1.
      assert (m1 = 9007199254740992) by lia. subst m1.
      replace (shr_m mrs'') with 4503599627370496 by (rewrite Hm''; rewrite H; reflexivity).
      lia. }
  destruct Hres as [Hmres Heres].
  destruct (shr_m mrs'') as [|m''|m'']; try lia.
  replace (Z.leb e'' (PyFloat.emax - PyFloat.prec)) with true
    by (symmetry; apply Z.leb_le; unfold PyFloat.emax, PyFloat.prec; lia).
  exists m'', e''. unfold PyFloat.normal.
  change (2 ^ 52) with 4503599627370496. change (2 ^ 53) with 9007199254740992.
  repeat split; lia.
Qed.

Lemma iter_xO m d : Zpos (Pos.iter xO m d) = Zpos m * 2 ^ Zpos d.
Proof.
  induction d as [|d IH] using Pos.peano_ind.
  - simpl. lia.
  - rewrite Pos.iter_succ, Pos2Z.inj_xO, IH, Pos2Z.inj_succ, Z.pow_succ_r by lia. lia.
Qed.

Lemma shl_align_spec mx ex ex' :
  Zpos (fst (shl_align mx ex ex')) = Zpos mx * 2 ^ (ex - Z.min ex ex') /\
  snd (shl_align mx ex ex') = Z.min ex ex'.
Proof.
  unfold shl_align. destruct (ex' - ex) as [|d|d] eqn:Hd; simpl fst; simpl snd.
  - replace (Z.min ex ex') with ex by lia. rewrite Z.sub_diag. simpl. lia.
  - replace (Z.min ex ex') with ex by lia. rewrite Z.sub_diag. simpl. lia.
  - replace (Z.min ex ex') with ex' by lia. rewrite iter_xO.
    replace (ex - ex') with (Zpos d) by lia. split; reflexivity.
Qed.

Lemma binary_round_normal sx mx ex :
  -900 <= ex <= 900 -> Zdigits2 (Zpos mx) + ex <= 1000 ->
  exists m e,
    binary_round PyFloat.prec PyFloat.emax sx mx ex = S754_finite sx m e /\
    PyFloat.normal m /\ -953 <= e <= 948.
Proof.
  intros Hex Hd. unfold binary_round.
  pose proof (Zdigits2_pos (Zpos mx) ltac:(lia)) as Hdpos.
  change (Zpos (digits2_pos mx)) with (Zdigits2 (Zpos mx)).
  set (d := Zdigits2 (Zpos mx)) in *.
  replace (fexp PyFloat.prec PyFloat.emax (d + ex)) with (d + ex - 53)
    by (unfold fexp, emin, PyFloat.prec, PyFloat.emax; lia).
  destruct (shl_align_spec mx ex (d + ex - 53)) as [Hm He].
  destruct (shl_align mx ex (d + ex - 53)) as [mz ez].
  simpl fst in Hm; simpl snd in He. rewrite <- He in Hm.
  assert (Hdz : Zdigits2 (Zpos mz) = d + (ex - ez)).
  { rewrite Hm. apply Zdigits2_shift; lia. }
  destruct (binary_round_aux_normal sx (Zpos mz) ez loc_Exact)
    as (m & e & Hfin & Hn & Hebound); try lia.
  exists m, e. repeat split; try assumption; try apply Hn; lia.
Qed.

Lemma SFdiv_normal s1 m1 e1 s2 m2 e2 :
  PyFloat.normal m1 -> PyFloat.normal m2 -> -200 <= e1 <= 200 -> -200 <= e2 <= 200 ->
  exists m e,
    SFdiv PyFloat.prec PyFloat.emax (S754_finite s1 m1 e1) (S754_finite s2 m2 e2)
      = S754_finite (xorb s1 s2) m e /\
    PyFloat.normal m /\ e1 - e2 - 53 <= e <= e1 - e2 - 51.
Proof.
  intros Hn1 Hn2 He1 He2. unfold SFdiv, SFdiv_core_binary.
  rewrite (Zdigits2_normal m1 Hn1), (Zdigits2_normal m2 Hn2).
  replace (Z.min (fexp PyFloat.prec PyFloat.emax (53 + e1 - (53 + e2))) (e1 - e2))
    with (e1 - e2 - 53)
    by (unfold fexp, emin, PyFloat.prec, PyFloat.emax; lia).
  replace (e1 - e2 - (e1 - e2 - 53)) with 53 by lia.
  rewrite Z.shiftl_mul_pow2 by lia.
  pose proof (Z_div_mod (Zpos m1 * 2 ^ 53) (Zpos m2) ltac:(lia)) as Hdm.
  destruct (Z.div_eucl (Zpos m1 * 2 ^ 53) (Zpos m2)) as [q r].
  destruct Hdm as [Hq Hr].
  destruct Hn1 as [Hlo1 Hhi1]. destruct Hn2 as [Hlo2 Hhi2].
  change (2 ^ 52) with 4503599627370496 in *.
  change (2 ^ 53) with 9007199254740992 in *.
  assert (Hqlo : 4503599627370496 <= q).
  { destruct (Z_le_gt_dec 4503599627370496 q) as [|Hgt]; [assumption|exfalso].
    assert (Zpos m2 * q <= Zpos m2 * 4503599627370495)
      by (apply Z.mul_le_mono_nonneg_l; lia).
    lia. }
  assert (Hqhi : q < 18014398509481984).
  { destruct (Z_lt_ge_dec q 18014398509481984) as [|Hge]; [assumption|exfalso].
    assert (Zpos m2 * 18014398509481984 <= Zpos m2 * q)
      by (apply Z.mul_le_mono_nonneg_l; lia).
    lia. }
  assert (Hdq : 53 <= Zdigits2 q <= 54).
  { split.
    - apply (Zdigits2_ge q 52); [lia | change (2 ^ 52) with 4503599627370496; lia].
    - apply Zdigits2_le; [lia | change (2 ^ 54) with 18014398509481984; lia]. }
  destruct (binary_round_aux_normal (xorb s1 s2) q (e1 - e2 - 53)
              (new_location (Zpos m2) r)) as (m & e & Hfin & Hn & He); try lia.
  rewrite Hfin. exists m, e. repeat split; try apply Hn; lia.
Qed.

Lemma SFsub_one_finite m e :
  PyFloat.normal m -> -200 <= e <= 200 ->
  let r := SFsub PyFloat.prec PyFloat.emax
             (S754_finite false 4503599627370496 (-52)) (S754_finite false m e) in
  r = S754_zero false \/
  exists s m' e', r = S754_finite s m' e' /\ PyFloat.normal m' /\ -953 <= e' <= 948.
Proof.
  intros Hn He r. subst r. unfold SFsub.
  set (ez := Z.min (-52) e).
  destruct (shl_align_spec 4503599627370496 (-52) ez) as [Ha _].
  destruct (shl_align_spec m e ez) as [Hb _].
  set (a := fst (shl_align 4503599627370496 (-52) ez)) in *.
  set (b := fst (shl_align m e ez)) in *.
  replace (Z.min (-52) ez) with ez in Ha by (unfold ez; lia).
  replace (Z.min e ez) with ez in Hb by (unfold ez; lia).
  unfold cond_Zopp.
  assert (Hez : -200 <= ez <= -52) by (unfold ez; lia).
  assert (Habound : Zpos a < 2 ^ 300).
  { rewrite Ha. change (Zpos 4503599627370496) with (2 ^ 52).
    rewrite <- Z.pow_add_r by lia. apply Z.pow_lt_mono_r; lia. }
  assert (Hbbound : Zpos b < 2 ^ 500).
  { rewrite Hb. destruct Hn as [_ Hhi].
    assert (0 < 2 ^ (e - ez)) by (apply Z.pow_pos_nonneg; lia).
    assert (2 ^ 53 * 2 ^ (e - ez) < 2 ^ 500)
      by (rewrite <- Z.pow_add_r by lia; apply Z.pow_lt_mono_r; lia).
    assert (Zpos m * 2 ^ (e - ez) < 2 ^ 53 * 2 ^ (e - ez))
      by (apply Z.mul_lt_mono_pos_r; lia).
    lia. }
  assert (H300 : 2 ^ 300 < 2 ^ 500) by (apply Z.pow_lt_mono_r; lia).
  unfold binary_normalize.
  destruct (Zpos a - Zpos b) as [|p|p] eqn:Hdiff.
  - left. reflexivity.
  - right. destruct (binary_round_normal false p ez) as (m' & e' & Hr & Hn' & He'); try lia.
    { assert (Zdigits2 (Zpos p) <= 500) by (apply Zdigits2_le; lia). lia. }
    eauto 6.
  - right. destruct (binary_round_normal true p ez) as (m' & e' & Hr & Hn' & He'); try lia.
    { assert (Zdigits2 (Zpos p) <= 500) by (apply Zdigits2_le; lia). lia. }
    eauto 6.
Qed.

Lemma SFmul_hundred_finite s m e :
  PyFloat.normal m -> -953 <= e <= 948 ->
  exists m' e',
    SFmul PyFloat.prec PyFloat.emax (S754_finite s m e)
      (S754_finite false 7036874417766400 (-46)) = S754_finite (xorb s false) m' e'.
Proof.
  intros [Hlo Hhi] He. unfold SFmul.
  change (2 ^ 52) with 4503599627370496 in Hlo.
  change (2 ^ 53) with 9007199254740992 in Hhi.
  assert (Hprod : 2 ^ 104 <= Zpos (m * 7036874417766400) < 2 ^ 106).
  { rewrite Pos2Z.inj_mul.
    change (2 ^ 104) with 20282409603651670423947251286016.
    change (2 ^ 106) with 81129638414606681695789005144064. lia. }
  assert (Hd : 105 <= Zdigits2 (Zpos (m * 7036874417766400)) <= 106).
  { split; [apply (Zdigits2_ge _ 104) | apply Zdigits2_le]; lia. }
  destruct (binary_round_aux_normal (xorb s false) (Zpos (m * 7036874417766400))
              (e + -46) loc_Exact) as (m' & e' & Hr & _ & _); try lia.
  eauto.
Qed.

(** ** Sizes in MB *)

Lemma int_truediv_MiB_normal n :
  0 < n < 2 ^ 63 ->
  exists m e,
    PyFloat.int_truediv n (1024 * 1024) = Ret (S754_finite false m e) /\
    PyFloat.normal m /\ -72 <= e <= -9.
Proof.
  intros [Hpos Hlt]. destruct n as [|p|p]; try lia.
  unfold PyFloat.int_truediv. change (Z.eqb (1024 * 1024) 0) with false. cbv iota.
  change (PyFloat.exact (Zpos p)) with (S754_finite false p 0).
  change (PyFloat.exact (1024 * 1024)) with (S754_finite false 1048576 0).
  unfold SFdiv, SFdiv_core_binary.
  pose proof (Zdigits2_bounds (Zpos p) Hpos) as [Hlo Hhi].
  pose proof (Zdigits2_pos (Zpos p) Hpos) as Hdpos.
  assert (Hd : Zdigits2 (Zpos p) <= 63) by (apply Zdigits2_le; assumption).
  set (d := Zdigits2 (Zpos p)) in *.
  change (Zdigits2 (Zpos 1048576)) with 21.
  replace (Z.min (fexp PyFloat.prec PyFloat.emax (d + 0 - (21 + 0))) (0 - 0)) with (d - 74)
    by (unfold fexp, emin, PyFloat.prec, PyFloat.emax; lia).
  replace (0 - 0 - (d - 74)) with (74 - d) by lia.
  destruct (74 - d) as [|s|s] eqn:Hs; try lia.
  rewrite <- Hs. clear s Hs.
  rewrite Z.shiftl_mul_pow2 by lia.
  pose proof (Z_div_mod (Zpos p * 2 ^ (74 - d)) (Zpos 1048576) ltac:(lia)) as Hdm.
  destruct (Z.div_eucl (Zpos p * 2 ^ (74 - d)) (Zpos 1048576)) as [q r].
  destruct Hdm as [Hq Hr].
  assert (Hbig : 2 ^ 73 <= Zpos p * 2 ^ (74 - d) < 2 ^ 74).
  { assert (E1 : 2 ^ 73 = 2 ^ (d - 1) * 2 ^ (74 - d))
      by (rewrite <- Z.pow_add_r by lia; f_equal; lia).
    assert (E2 : 2 ^ 74 = 2 ^ d * 2 ^ (74 - d))
      by (rewrite <- Z.pow_add_r by lia; f_equal; lia).
    rewrite E1, E2.
    assert (0 < 2 ^ (74 - d)) by (apply Z.pow_pos_nonneg; lia).
    split.
    - apply Z.mul_le_mono_nonneg_r; lia.
    - apply Z.mul_lt_mono_pos_r; lia. }
  change (2 ^ 73) with 9444732965739290427392 in Hbig.
  change (2 ^ 74) with 18889465931478580854784 in Hbig.
  assert (Hqb : 9007199254740992 <= q < 18014398509481984) by lia.
  assert (Hdq : Zdigits2 q = 54).
  { apply Z.le_antisymm.
    - apply Zdigits2_le; [lia | change (2 ^ 54) with 18014398509481984; lia].
    - apply (Zdigits2_ge q 53); [lia | change (2 ^ 53) with 9007199254740992; lia]. }
  destruct (binary_round_aux_normal (xorb false false) q (d - 74)
              (new_location (Zpos 1048576) r)) as (m & e & Hfin & Hn & He); try lia.
  rewrite Hfin. simpl. exists m, e. repeat split; try apply Hn; lia.
Qed.

Lemma int_truediv_MiB_exact n :
  0 < n < 2 ^ 53 ->
  exists m e,
    PyFloat.int_truediv n (1024 * 1024) = Ret (S754_finite false m e) /\
    -73 <= e <= -20 /\
    Zpos m * 2 ^ 20 = n * 2 ^ (- e).
Proof.
  intros [Hpos Hlt]. destruct n as [|p|p]; try lia.
  unfold PyFloat.int_truediv. change (Z.eqb (1024 * 1024) 0) with false. cbv iota.
  change (PyFloat.exact (Zpos p)) with (S754_finite false p 0).
  change (PyFloat.exact (1024 * 1024)) with (S754_finite false 1048576 0).
  unfold SFdiv, SFdiv_core_binary.
  pose proof (Zdigits2_bounds (Zpos p) Hpos) as [Hlo Hhi].
  pose proof (Zdigits2_pos (Zpos p) Hpos) as Hdpos.
  assert (Hd : Zdigits2 (Zpos p) <= 53) by (apply Zdigits2_le; assumption).
  set (d := Zdigits2 (Zpos p)) in *.
  change (Zdigits2 (Zpos 1048576)) with 21.
  replace (Z.min (fexp PyFloat.prec PyFloat.emax (d + 0 - (21 + 0))) (0 - 0)) with (d - 74)
    by (unfold fexp, emin, PyFloat.prec, PyFloat.emax; lia).
  replace (0 - 0 - (d - 74)) with (74 - d) by lia.
  destruct (74 - d) as [|s|s] eqn:Hs; try lia.
  rewrite <- Hs. clear s Hs.
  rewrite Z.shiftl_mul_pow2 by lia.
  (* the quotient is exact *)
  set (t := Zpos p * 2 ^ (53 - d)).
  assert (Ht : 2 ^ 52 <= t < 2 ^ 53).
  { unfold t.
    assert (E1 : 2 ^ 52 = 2 ^ (d - 1) * 2 ^ (53 - d))
      by (rewrite <- Z.pow_add_r by lia; f_equal; lia).
    assert (E2 : 2 ^ 53 = 2 ^ d * 2 ^ (53 - d))
      by (rewrite <- Z.pow_add_r by lia; f_equal; lia).
    rewrite E1, E2.
    assert (0 < 2 ^ (53 - d)) by (apply Z.pow_pos_nonneg; lia).
    split.
    - apply Z.mul_le_mono_nonneg_r; lia.
    - apply Z.mul_lt_mono_pos_r; lia. }
  assert (Hnum : Zpos p * 2 ^ (74 - d) = Zpos 1048576 * (2 * t) + 0).
  { unfold t. replace (74 - d) with (21 + (53 - d)) by lia.
    rewrite Z.pow_add_r by lia. change (2 ^ 21) with 2097152. lia. }
  assert (Hde : Z.div_eucl (Zpos p * 2 ^ (74 - d)) (Zpos 1048576) = (2 * t, 0)).
  { pose proof (Z_div_mod (Zpos p * 2 ^ (74 - d)) (Zpos 1048576) ltac:(lia)) as Hdm.
    destruct (Z.div_eucl (Zpos p * 2 ^ (74 - d)) (Zpos 1048576)) as [q r].
    destruct Hdm as [Hq Hr]. f_equal; nia. }
  rewrite Hde. change (new_location (Zpos 1048576) 0) with loc_Exact.
  change (2 ^ 52) with 4503599627370496 in Ht.
  change (2 ^ 53) with 9007199254740992 in Ht.
  destruct t as [|pt|pt] eqn:Hteq; try lia.
  change (2 * Zpos pt) with (Zpos pt~0).
  unfold binary_round_aux, shr_fexp.
  assert (Hd2 : Zdigits2 (Zpos pt~0) = 54).
  { apply Z.le_antisymm.
    - apply Zdigits2_le; [lia | change (2 ^ 54) with 18014398509481984; lia].
    - apply (Zdigits2_ge (Zpos pt~0) 53); [lia | change (2 ^ 53) with 9007199254740992; lia]. }
  rewrite Hd2.
  replace (fexp PyFloat.prec PyFloat.emax (54 + (d - 74)) - (d - 74)) with 1
    by (unfold fexp, emin, PyFloat.prec, PyFloat.emax; lia).
  cbn [shr shr_record_of_loc iter_pos shr_1 orb shr_m loc_of_shr_record round_nearest_even].
  assert (Hd1 : Zdigits2 (Zpos pt) = 53).
  { apply Z.le_antisymm.
    - apply Zdigits2_le; [lia | change (2 ^ 53) with 9007199254740992; lia].
    - apply (Zdigits2_ge (Zpos pt) 52); [lia | change (2 ^ 52) with 4503599627370496; lia]. }
  rewrite Hd1.
  replace (fexp PyFloat.prec PyFloat.emax (53 + (d - 74 + 1)) - (d - 74 + 1)) with 0
    by (unfold fexp, emin, PyFloat.prec, PyFloat.emax; lia).
  cbn [shr shr_record_of_loc shr_m].
  replace (Z.leb (d - 74 + 1) (PyFloat.emax - PyFloat.prec)) with true
    by (symmetry; apply Z.leb_le; unfold PyFloat.emax, PyFloat.prec; lia).
  exists pt, (d - 74 + 1). split; [reflexivity|]. split; [lia|].
  rewrite <- Hteq. unfold t.
  replace (- (d - 74 + 1)) with (20 + (53 - d)) by lia.
  rewrite Z.pow_add_r by lia. change (2 ^ 20) with 1048576. lia.
Qed.

Lemma megabytes_total sz :
  (off_val sz = 0%N /\ megabytes sz = Ret (S754_zero false)) \/
  ((0 < off_val sz)%N /\
   exists m e, megabytes sz = Ret (S754_finite false m e)).
Proof.
  destruct sz as [n Hn]. unfold megabytes. simpl off_val.
  destruct (N.eq_dec n 0) as [->|Hne].
  - left. split; reflexivity.
  - right. split; [lia|].
    destruct (int_truediv_MiB_normal (Z.of_N n)) as (m & e & H & _).
    + change (2 ^ 63) with (Z.of_N (2 ^ 63)). lia.
    + eauto.
Qed.

Lemma reduction_finite sz sz' input_size output_size :
  (0 < off_val sz)%N ->
  megabytes sz = Ret input_size ->
  megabytes sz' = Ret output_size ->
  PyFloat.is_finite (reduction_formula output_size input_size) = true.
Proof.
  intros Hpos Hin Hout. unfold megabytes in *.
  destruct sz as [n Hn], sz' as [n' Hn']. simpl off_val in *.
  destruct (int_truediv_MiB_normal (Z.of_N n)) as (m & e & Hm & Hnorm & He).
  { change (2 ^ 63) with (Z.of_N (2 ^ 63)). lia. }
  rewrite Hm in Hin. injection Hin as <-.
  unfold reduction_formula, PyFloat.mul, PyFloat.sub.
  change (PyFloat.of_int 1) with (S754_finite false 4503599627370496 (-52)).
  change (PyFloat.of_int 100) with (S754_finite false 7036874417766400 (-46)).
  destruct (N.eq_dec n' 0) as [->|Hne].
  - change (PyFloat.int_truediv (Z.of_N 0) (1024 * 1024)) with (@Ret PyFloat.float (S754_zero false)) in Hout.
    injection Hout as <-. reflexivity.
  - destruct (int_truediv_MiB_normal (Z.of_N n')) as (m' & e' & Hm' & Hnorm' & He').
    { change (2 ^ 63) with (Z.of_N (2 ^ 63)). lia. }
    rewrite Hm' in Hout. injection Hout as <-.
    destruct (SFdiv_normal false m' e' false m e) as (mq & eq & Hq & Hnq & Heq); try lia;
      try assumption.
    simpl xorb in Hq. rewrite Hq.
    destruct (SFsub_one_finite mq eq Hnq ltac:(lia)) as [Hz|(s & ms & es & Hs & Hns & Hes)].
    + rewrite Hz. reflexivity.
    + rewrite Hs.
      destruct (SFmul_hundred_finite s ms es Hns Hes) as (mr & er & Hr).
      rewrite Hr. reflexivity.
Qed.

(** ** Rounding to decimals *)

Lemma round_half_even_nearest num den :
  0 < den ->
  2 * Z.abs (PyFloat.round_half_even num den * den - num) <= den.
Proof.
  intros Hden. unfold PyFloat.round_half_even.
  pose proof (Z.div_mod num den ltac:(lia)) as Hdm.
  pose proof (Z.mod_pos_bound num den Hden) as Hr.
  set (q := num / den) in *. set (r := num mod den) in *.
  destruct (Z.compare_spec (2 * r) den) as [Heq|Hlt|Hgt].
  - destruct (Z.even q); nia.
  - nia.
  - nia.
Qed.

Lemma round_half_even_nonneg num den : 0 <= num -> 0 < den -> 0 <= PyFloat.round_half_even num den.
Proof.
  intros Hn Hd. unfold PyFloat.round_half_even.
  assert (0 <= num / den) by (apply Z.div_pos; lia).
  destruct (Z.compare (2 * (num mod den)) den); try destruct (Z.even (num / den)); lia.
Qed.

Lemma round_half_even_scale a b c :
  0 < b -> 0 < c ->
  PyFloat.round_half_even (a * c) (b * c) = PyFloat.round_half_even a b.
Proof.
  intros Hb Hc. unfold PyFloat.round_half_even.
  rewrite Z.div_mul_cancel_r by lia.
  rewrite Z.mul_mod_distr_r by lia.
  replace (2 * (a mod b * c)) with (2 * (a mod b) * c) by lia.
  rewrite <- (Zmult_compare_compat_r (2 * (a mod b)) b c) by lia.
  reflexivity.
Qed.

Lemma scaled_nonneg p m e : 0 <= PyFloat.scaled p m e.
Proof.
  unfold PyFloat.scaled.
  assert (0 < 10 ^ Z.of_nat p) by (apply Z.pow_pos_nonneg; lia).
  destruct e as [|k|k].
  - change (2 ^ 0) with 1. lia.
  - assert (0 < 2 ^ Zpos k) by (apply Z.pow_pos_nonneg; lia). nia.
  - apply round_half_even_nonneg; [lia | apply Z.pow_pos_nonneg; lia].
Qed.

Lemma shown_int_nearest x :
  (Qabs (inject_Z (PyFloat.shown_int x) - PyFloat.value x) <= 1 # 2)%Q.
Proof.
  assert (Hcase : forall a b d, 2 * Z.abs (a * Zpos d - b) <= Zpos d ->
            (Qabs (inject_Z a - (b # d)) <= 1 # 2)%Q).
  { intros a b d H. unfold Qle, Qabs, Qminus, Qplus, Qopp, inject_Z.
    simpl Qnum. simpl Qden. lia. }
  assert (Hsame : forall z, (Qabs (inject_Z z - inject_Z z) <= 1 # 2)%Q).
  { intros z. apply Hcase. lia. }
  destruct x as [[|]|[|]| |s m e]; try apply (Hsame 0).
  unfold PyFloat.shown_int, PyFloat.shown, PyFloat.sign_bit, PyFloat.value,
    PyFloat.scaled.
  change (10 ^ Z.of_nat 0) with 1.
  destruct e as [|k|k].
  - change (2 ^ 0) with 1. rewrite !Z.mul_1_r. destruct s; apply Hsame.
  - rewrite !Z.mul_1_r. destruct s.
    + replace (- (Zpos m * 2 ^ Zpos k)) with (Zneg m * 2 ^ Zpos k) by lia.
      apply Hsame.
    + apply Hsame.
  - pose proof (round_half_even_nearest (Zpos m) (Zpos (2 ^ k)) ltac:(lia)) as H.
    rewrite Z.mul_1_r, <- Pos2Z.inj_pow.
    destruct s; apply Hcase; lia.
Qed.

Lemma tenths_gap m n : (m + 104858 <= n)%N -> tenths m < tenths n.
Proof.
  intros H. unfold tenths. change (1024 * 1024) with 1048576.
  pose proof (round_half_even_nearest (10 * Z.of_N m) 1048576 ltac:(lia)).
  pose proof (round_half_even_nearest (10 * Z.of_N n) 1048576 ltac:(lia)).
  lia.
Qed.

Lemma tenths_mono m n : (m <= n)%N -> tenths m <= tenths n.
Proof.
  intros H. unfold tenths, PyFloat.round_half_even. change (1024 * 1024) with 1048576.
  pose proof (Z.div_mod (10 * Z.of_N m) 1048576 ltac:(lia)) as Hm.
  pose proof (Z.div_mod (10 * Z.of_N n) 1048576 ltac:(lia)) as Hn.
  pose proof (Z.mod_pos_bound (10 * Z.of_N m) 1048576 ltac:(lia)) as Hrm.
  pose proof (Z.mod_pos_bound (10 * Z.of_N n) 1048576 ltac:(lia)) as Hrn.
  set (qm := 10 * Z.of_N m / 1048576) in *. set (rm := (10 * Z.of_N m) mod 1048576) in *.
  set (qn := 10 * Z.of_N n / 1048576) in *. set (rn := (10 * Z.of_N n) mod 1048576) in *.
  destruct (Z.eq_dec qm qn) as [Heq|Hne].
  - rewrite Heq in *.
    destruct (Z.compare_spec (2 * rm) 1048576), (Z.compare_spec (2 * rn) 1048576);
      destruct (Z.even qn); lia.
  - destruct (Z.compare_spec (2 * rm) 1048576), (Z.compare_spec (2 * rn) 1048576);
      destruct (Z.even qn), (Z.even qm); lia.
Qed.

Lemma shown_megabytes sz x :
  (off_val sz < 2 ^ 53)%N ->
  megabytes sz = Ret x ->
  PyFloat.shown 1 x = tenths (off_val sz).
Proof.
  intros Hlt Hx. unfold megabytes in Hx. destruct sz as [n Hn]. simpl off_val in *.
  destruct (N.eq_dec n 0) as [->|Hne].
  - change (PyFloat.int_truediv (Z.of_N 0) (1024 * 1024))
      with (@Ret PyFloat.float (S754_zero false)) in Hx.
    injection Hx as <-. reflexivity.
  - destruct (int_truediv_MiB_exact (Z.of_N n)) as (m & e & Hm & He & Hval).
    { change (2 ^ 53) with (Z.of_N (2 ^ 53)). lia. }
    rewrite Hm in Hx. injection Hx as <-.
    unfold PyFloat.shown, PyFloat.scaled, tenths.
    destruct e as [|k|k]; try lia.
    change (10 ^ Z.of_nat 1) with 10. change (1024 * 1024) with 1048576.
    set (c := 2 ^ (Zpos k - 20)).
    assert (Hc : 0 < c) by (apply Z.pow_pos_nonneg; lia).
    assert (Hk : 2 ^ Zpos k = 1048576 * c).
    { unfold c. change 1048576 with (2 ^ 20). rewrite <- Z.pow_add_r by lia.
      f_equal. lia. }
    change (- Zneg k) with (Zpos k) in Hval. rewrite Hk in Hval.
    change (2 ^ 20) with 1048576 in Hval.
    assert (Hmc : Zpos m = Z.of_N n * c) by lia.
    rewrite Hk, Hmc.
    replace (Z.of_N n * c * 10) with (10 * Z.of_N n * c) by lia.
    apply round_half_even_scale; lia.
Qed.

Lemma megabytes_shape sz x :
  megabytes sz = Ret x ->
  (exists s, x = S754_zero s /\ s = false) \/ (exists m e, x = S754_finite false m e).
Proof.
  intros Hx. destruct (megabytes_total sz) as [[_ H]|[_ (m & e & H)]];
    rewrite H in Hx; injection Hx as <-; eauto.
Qed.

(** ** The range of the reduction *)

Lemma binary_round_aux_faithful sx mx ex lx :
  0 < mx -> 53 <= Zdigits2 mx -> -1021 <= ex -> Zdigits2 mx + ex <= 1023 ->
  exists m e,
    binary_round_aux PyFloat.prec PyFloat.emax sx mx ex lx = S754_finite sx m e /\
    PyFloat.normal m /\
    0 <= e - ex - (Zdigits2 mx - 53) <= 1 /\
    mx / 2 ^ (Zdigits2 mx - 53)
      <= Zpos m * 2 ^ (e - ex - (Zdigits2 mx - 53))
      <= mx / 2 ^ (Zdigits2 mx - 53) + 1.
Proof.
  intros Hmx Hd53 Hex Hd. unfold binary_round_aux.
  pose proof (Zdigits2_bounds mx Hmx) as [Hlo Hhi].
  set (d := Zdigits2 mx) in *.
  destruct (shr_fexp_spec PyFloat.prec PyFloat.emax mx ex lx ltac:(lia)) as [Hm' He'].
  destruct (shr_fexp PyFloat.prec PyFloat.emax mx ex lx) as [mrs' e'].
  simpl fst in Hm'; simpl snd in He'. fold d in Hm', He'.
  assert (Hk : Z.max (fexp PyFloat.prec PyFloat.emax (d + ex) - ex) 0 = d - 53)
    by (unfold fexp, emin, PyFloat.prec, PyFloat.emax; lia).
  rewrite Hk in Hm', He'. clear Hk.
  assert (Hpow : 0 < 2 ^ (d - 53)) by (apply Z.pow_pos_nonneg; lia).
  assert (E1 : 2 ^ (d - 1) = 2 ^ (d - 53) * 2 ^ 52)
    by (rewrite <- Z.pow_add_r by lia; f_equal; lia).
  assert (E2 : 2 ^ d = 2 ^ (d - 53) * 2 ^ 53)
    by (rewrite <- Z.pow_add_r by lia; f_equal; lia).
  assert (Hm'lo : 2 ^ 52 <= shr_m mrs').
  { rewrite Hm'. apply Z.div_le_lower_bound; [assumption | lia]. }
  assert (Hm'hi : shr_m mrs' < 2 ^ 53).
  { rewrite Hm'. apply Z.div_lt_upper_bound; [assumption | lia]. }
  pose proof (round_nearest_even_bounds (shr_m mrs') (loc_of_shr_record mrs')) as Hr.
  set (m1 := round_nearest_even (shr_m mrs') (loc_of_shr_record mrs')) in *.
  change (2 ^ 52) with 4503599627370496 in *.
  change (2 ^ 53) with 9007199254740992 in *.
  assert (Hm1 : 0 < m1) by lia.
  pose proof (Zdigits2_bounds m1 Hm1) as [Hlo1 Hhi1].
  assert (Hd1 : Zdigits2 m1 <= 54)
    by (apply Zdigits2_le; [assumption | change (2 ^ 54) with 18014398509481984; lia]).
  assert (Hd1' : 53 <= Zdigits2 m1)
    by (apply (Zdigits2_ge m1 52); [lia | change (2 ^ 52) with 4503599627370496; lia]).
  destruct (shr_fexp_spec PyFloat.prec PyFloat.emax m1 e' loc_Exact ltac:(lia)) as [Hm'' He''].
  destruct (shr_fexp PyFloat.prec PyFloat.emax m1 e' loc_Exact) as [mrs'' e''].
  simpl fst in Hm''; simpl snd in He''.
  set (d1 := Zdigits2 m1) in *.
  assert (Hk : Z.max (fexp PyFloat.prec PyFloat.emax (d1 + e') - e') 0 = d1 - 53)
    by (unfold fexp, emin, PyFloat.prec, PyFloat.emax; lia).
  rewrite Hk in Hm'', He''. clear Hk.
  assert (Hres : 4503599627370496 <= shr_m mrs'' < 9007199254740992 /\
                 0 <= e'' - ex - (d - 53) <= 1 /\
                 shr_m mrs'' * 2 ^ (e'' - ex - (d - 53)) = m1).
  { destruct (Z.eq_dec d1 53) as [H53|H53].
    - rewrite H53 in *. change (2 ^ (53 - 53)) with 1 in Hm''. rewrite Z.div_1_r in Hm''.
      change (2 ^ 53) with 9007199254740992 in Hhi1.
      replace (e'' - ex - (d - 53)) with 0 by lia. change (2 ^ 0) with 1. lia.
    - assert (H54 : d1 = 54) by lia. rewrite H54 in *.
      change (2 ^ (54 - 53)) with 2 in Hm''.
      change (2 ^ (54 - 1)) with 9007199254740992 in Hlo1.
      assert (m1 = 9007199254740992) by lia.
      assert (Hs : shr_m mrs'' = 4503599627370496) by (rewrite Hm'', H; reflexivity).
      rewrite Hs. replace (e'' - ex - (d - 53)) with 1 by lia. change (2 ^ 1) with 2. lia. }
  destruct Hres as (Hmres & Heres & Hval).
  destruct (shr_m mrs'') as [|m''|m'']; try lia.
  replace (Z.leb e'' (PyFloat.emax - PyFloat.prec)) with true
    by (symmetry; apply Z.leb_le; unfold PyFloat.emax, PyFloat.prec; lia).
  exists m'', e''. unfold PyFloat.normal.
  change (2 ^ 52) with 4503599627370496. change (2 ^ 53) with 9007199254740992.
  rewrite Hval, <- Hm'. repeat split; lia.
Qed.

Lemma new_location_zero n : new_location n 0 = loc_Exact.
Proof. unfold new_location. destruct (Z.even n); reflexivity. Qed.

Lemma SFdiv_self m e :
  PyFloat.normal m ->
  SFdiv PyFloat.prec PyFloat.emax (S754_finite false m e) (S754_finite false m e)
  = S754_finite false 4503599627370496 (-52).
Proof.
  intros Hn. unfold SFdiv, SFdiv_core_binary.
  rewrite (Zdigits2_normal m Hn).
  replace (Z.min (fexp PyFloat.prec PyFloat.emax (53 + e - (53 + e))) (e - e)) with (-53)
    by (unfold fexp, emin, PyFloat.prec, PyFloat.emax; lia).
  replace (e - e - -53) with 53 by lia.
  rewrite Z.shiftl_mul_pow2 by lia.
  assert (Hde : Z.div_eucl (Zpos m * 2 ^ 53) (Zpos m) = (2 ^ 53, 0)).
  { pose proof (Z_div_mod (Zpos m * 2 ^ 53) (Zpos m) ltac:(lia)) as Hdm.
    destruct (Z.div_eucl (Zpos m * 2 ^ 53) (Zpos m)) as [q r].
    destruct Hdm as [Hq Hr].
    assert (q = 2 ^ 53) by nia. subst q. f_equal. lia. }
  rewrite Hde, new_location_zero. reflexivity.
Qed.

Lemma Zdigits2_exact m d : 0 < d -> 2 ^ (d - 1) <= m < 2 ^ d -> Zdigits2 m = d.
Proof.
  intros Hd [Hlo Hhi].
  assert (0 < m) by (pose proof (Z.pow_pos_nonneg 2 (d - 1)); lia).
  apply Z.le_antisymm.
  - apply Zdigits2_le; assumption.
  - replace d with (d - 1 + 1) by lia. apply Zdigits2_ge; lia.
Qed.

Lemma SFdiv_at_most_one mo eo mi ei :
  PyFloat.normal mo -> PyFloat.normal mi ->
  -73 <= eo <= -9 -> -73 <= ei <= -9 ->
  eo < ei \/ (eo = ei /\ Zpos mo <= Zpos mi) ->
  unit_float (-117) (SFdiv PyFloat.prec PyFloat.emax
                (S754_finite false mo eo) (S754_finite false mi ei)).
Proof.
  intros Hno Hni Heo Hei Hle.
  destruct (Z.eq_dec eo ei) as [Hee|Hee];
    [destruct (Z.eq_dec (Zpos mo) (Zpos mi)) as [Hmm|Hmm]|].
  - (* the same float *)
    injection Hmm as ->. subst ei. rewrite SFdiv_self by assumption.
    right. exists 4503599627370496%positive, (-52).
    repeat split; try (right; split); try reflexivity; try lia;
      unfold PyFloat.normal; change (2 ^ 52) with 4503599627370496;
      change (2 ^ 53) with 9007199254740992; lia.
  - (* same exponent, smaller significand *)
    assert (Hlt : Zpos mo < Zpos mi) by lia. subst ei.
    unfold SFdiv, SFdiv_core_binary.
    rewrite (Zdigits2_normal mo Hno), (Zdigits2_normal mi Hni).
    replace (Z.min (fexp PyFloat.prec PyFloat.emax (53 + eo - (53 + eo))) (eo - eo))
      with (-53) by (unfold fexp, emin, PyFloat.prec, PyFloat.emax; lia).
    replace (eo - eo - -53) with 53 by lia.
    rewrite Z.shiftl_mul_pow2 by lia.
    pose proof (Z_div_mod (Zpos mo * 2 ^ 53) (Zpos mi) ltac:(lia)) as Hdm.
    destruct (Z.div_eucl (Zpos mo * 2 ^ 53) (Zpos mi)) as [q r].
    destruct Hdm as [Hq Hr].
    destruct Hno as [Hlo1 Hhi1]. destruct Hni as [Hlo2 Hhi2].
    change (2 ^ 52) with 4503599627370496 in *.
    change (2 ^ 53) with 9007199254740992 in *.
    assert (Hqlo : 4503599627370496 <= q).
    { destruct (Z_le_gt_dec 4503599627370496 q) as [|Hgt]; [assumption|exfalso].
      assert (Zpos mi * q <= Zpos mi * 4503599627370495)
        by (apply Z.mul_le_mono_nonneg_l; lia).
      lia. }
    assert (Hqhi : q < 9007199254740992).
    { destruct (Z_lt_ge_dec q 9007199254740992) as [|Hge]; [assumption|exfalso].
      assert (Zpos mi * 9007199254740992 <= Zpos mi * q)
        by (apply Z.mul_le_mono_nonneg_l; lia).
      lia. }
    assert (Hdq : Zdigits2 q = 53).
    { apply Zdigits2_exact; [lia|].
      change (2 ^ (53 - 1)) with 4503599627370496.
      change (2 ^ 53) with 9007199254740992. lia. }
    destruct (binary_round_aux_faithful (xorb false false) q (-53)
                (new_location (Zpos mi) r)) as (m & e & Hfin & Hn & He & Hv); try lia.
    rewrite Hfin. simpl xorb. right. exists m, e.
    rewrite Hdq in He, Hv. replace (53 - 53) with 0 in He, Hv by lia.
    change (2 ^ 0) with 1 in Hv. rewrite Z.div_1_r in Hv.
    split; [reflexivity|]. split; [assumption|]. split; [lia|].
    destruct (Z.eq_dec e (-53)) as [->|Hne]; [left; lia|right].
    assert (e = -52) by lia. subst e. split; [reflexivity|].
    replace (-52 - -53 - 0) with 1 in Hv by lia. change (2 ^ 1) with 2 in Hv.
    destruct Hn as [Hnlo _]. change (2 ^ 52) with 4503599627370496 in *. lia.
  - (* smaller exponent *)
    assert (Hlt : eo < ei) by lia.
    unfold SFdiv, SFdiv_core_binary.
    rewrite (Zdigits2_normal mo Hno), (Zdigits2_normal mi Hni).
    replace (Z.min (fexp PyFloat.prec PyFloat.emax (53 + eo - (53 + ei))) (eo - ei))
      with (eo - ei - 53) by (unfold fexp, emin, PyFloat.prec, PyFloat.emax; lia).
    replace (eo - ei - (eo - ei - 53)) with 53 by lia.
    rewrite Z.shiftl_mul_pow2 by lia.
    pose proof (Z_div_mod (Zpos mo * 2 ^ 53) (Zpos mi) ltac:(lia)) as Hdm.
    destruct (Z.div_eucl (Zpos mo * 2 ^ 53) (Zpos mi)) as [q r].
    destruct Hdm as [Hq Hr].
    destruct Hno as [Hlo1 Hhi1]. destruct Hni as [Hlo2 Hhi2].
    change (2 ^ 52) with 4503599627370496 in *.
    change (2 ^ 53) with 9007199254740992 in *.
    assert (Hqlo : 4503599627370496 <= q).
    { destruct (Z_le_gt_dec 4503599627370496 q) as [|Hgt]; [assumption|exfalso].
      assert (Zpos mi * q <= Zpos mi * 4503599627370495)
        by (apply Z.mul_le_mono_nonneg_l; lia).
      lia. }
    assert (Hqhi : q < 18014398509481984).
    { destruct (Z_lt_ge_dec q 18014398509481984) as [|Hge]; [assumption|exfalso].
      assert (Zpos mi * 18014398509481984 <= Zpos mi * q)
        by (apply Z.mul_le_mono_nonneg_l; lia).
      lia. }
    assert (Hdq : 53 <= Zdigits2 q <= 54).
    { split.
      - apply (Zdigits2_ge q 52); [lia | change (2 ^ 52) with 4503599627370496; lia].
      - apply Zdigits2_le; [lia | change (2 ^ 54) with 18014398509481984; lia]. }
    destruct (binary_round_aux_faithful (xorb false false) q (eo - ei - 53)
                (new_location (Zpos mi) r)) as (m & e & Hfin & Hn & He & Hv); try lia.
    rewrite Hfin. simpl xorb. right. exists m, e.
    split; [reflexivity|]. split; [assumption|]. split; [lia|].
    destruct (Z_le_gt_dec e (-53)) as [|Hgt]; [left; assumption|right].
    assert (Hd54 : Zdigits2 q = 54) by lia.
    assert (e = -52) by lia. subst e. split; [reflexivity|].
    rewrite Hd54 in He, Hv. replace (54 - 53) with 1 in He, Hv by lia.
    replace (-52 - (eo - ei - 53) - 1) with 1 in Hv by lia.
    change (2 ^ 1) with 2 in Hv.
    assert (q / 2 <= 9007199254740991) by (apply Z.div_le_upper_bound; lia).
    destruct Hn as [Hnlo _]. change (2 ^ 52) with 4503599627370496 in *. lia.
Qed.

Lemma binary_round_faithful sx mx ex :
  -900 <= ex <= 900 -> Zdigits2 (Zpos mx) + ex <= 1000 ->
  exists m e,
    binary_round PyFloat.prec PyFloat.emax sx mx ex = S754_finite sx m e /\
    PyFloat.normal m /\
    0 <= e - (Zdigits2 (Zpos mx) + ex - 53) <= 1 /\
    Zpos m * 2 ^ (e - (Zdigits2 (Zpos mx) + ex - 53)) <= 2 ^ 53.
Proof.
  intros Hex Hd. unfold binary_round.
  pose proof (Zdigits2_pos (Zpos mx) ltac:(lia)) as Hdpos.
  pose proof (Zdigits2_bounds (Zpos mx) ltac:(lia)) as [Hlo Hhi].
  change (Zpos (digits2_pos mx)) with (Zdigits2 (Zpos mx)).
  set (d := Zdigits2 (Zpos mx)) in *.
  replace (fexp PyFloat.prec PyFloat.emax (d + ex)) with (d + ex - 53)
    by (unfold fexp, emin, PyFloat.prec, PyFloat.emax; lia).
  destruct (shl_align_spec mx ex (d + ex - 53)) as [Hm He].
  destruct (shl_align mx ex (d + ex - 53)) as [mz ez].
  simpl fst in Hm; simpl snd in He. rewrite <- He in Hm.
  assert (Hdz : Zdigits2 (Zpos mz) = d + (ex - ez)).
  { rewrite Hm. apply Zdigits2_shift; lia. }
  destruct (binary_round_aux_faithful sx (Zpos mz) ez loc_Exact)
    as (m & e & Hfin & Hn & Hebound & Hv); try lia.
  exists m, e. rewrite Hdz in Hebound, Hv.
  replace (e - ez - (d + (ex - ez) - 53)) with (e - (d + ex - 53)) in Hebound, Hv by lia.
  split; [assumption|]. split; [assumption|]. split; [lia|].
  assert (Hz : Zpos mz / 2 ^ (d + (ex - ez) - 53) < 2 ^ 53).
  { apply Z.div_lt_upper_bound; [apply Z.pow_pos_nonneg; lia|].
    rewrite <- Z.pow_add_r by lia.
    replace (d + (ex - ez) - 53 + 53) with (d + (ex - ez)) by lia.
    rewrite Hm, Z.pow_add_r by lia.
    apply Z.mul_lt_mono_pos_r; [apply Z.pow_pos_nonneg; lia | assumption]. }
  lia.
Qed.

Lemma SFsub_one_unit lo r :
  -200 <= lo <= 0 -> unit_float lo r ->
  unit_float (lo - 52)
    (SFsub PyFloat.prec PyFloat.emax (S754_finite false 4503599627370496 (-52)) r).
Proof.
  intros Hlo [->|(m & e & -> & Hn & He & Hval)].
  - right. exists 4503599627370496%positive, (-52). split; [reflexivity|].
    unfold PyFloat.normal. change (2 ^ 52) with 4503599627370496.
    change (2 ^ 53) with 9007199254740992.
    repeat split; lia.
  - destruct Hval as [Hsmall|[-> Hm]].
    + unfold SFsub.
      replace (Z.min (-52) e) with e by lia.
      destruct (shl_align_spec 4503599627370496 (-52) e) as [Ha _].
      destruct (shl_align_spec m e e) as [Hb _].
      set (a := fst (shl_align 4503599627370496 (-52) e)) in *.
      set (b := fst (shl_align m e e)) in *.
      replace (Z.min (-52) e) with e in Ha by lia.
      rewrite Z.min_id, Z.sub_diag in Hb. change (2 ^ 0) with 1 in Hb.
      rewrite Z.mul_1_r in Hb.
      change (Zpos 4503599627370496) with (2 ^ 52) in Ha.
      rewrite <- Z.pow_add_r in Ha by lia.
      replace (52 + (-52 - e)) with (- e) in Ha by lia.
      unfold cond_Zopp.
      destruct Hn as [Hnlo Hnhi].
      assert (H53 : 2 ^ 53 <= 2 ^ (- e)) by (apply Z.pow_le_mono_r; lia).
      unfold binary_normalize.
      destruct (Zpos a - Zpos b) as [|p|p] eqn:Hdiff; try lia.
      assert (Hp : Zpos p < 2 ^ (- e)) by lia.
      assert (Hdp : Zdigits2 (Zpos p) <= - e) by (apply Zdigits2_le; lia).
      pose proof (Zdigits2_pos (Zpos p) ltac:(lia)) as Hdpos.
      destruct (binary_round_faithful false p e) as (ms & es & Hr & Hns & Hes & Hv);
        try lia.
      rewrite Hr. right. exists ms, es.
      split; [reflexivity|]. split; [assumption|]. split; [lia|].
      destruct (Z_le_gt_dec es (-53)) as [|Hgt]; [left; assumption|right].
      assert (es = -52) by lia. subst es. split; [reflexivity|].
      replace (-52 - (Zdigits2 (Zpos p) + e - 53)) with 1 in Hv by lia.
      change (2 ^ 1) with 2 in Hv. destruct Hns as [Hnslo _].
      change (2 ^ 52) with 4503599627370496 in *.
      change (2 ^ 53) with 9007199254740992 in *. lia.
    + left. change (2 ^ 52) with (Zpos 4503599627370496) in Hm.
      injection Hm as ->. reflexivity.
Qed.

Lemma SFmul_hundred_percent lo s :
  -900 <= lo -> unit_float lo s ->
  percent_float
    (SFmul PyFloat.prec PyFloat.emax s (S754_finite false 7036874417766400 (-46))).
Proof.
  intros Hlo [->|(m & e & -> & Hn & He & Hval)].
  - left. reflexivity.
  - right. destruct Hval as [Hsmall|[-> Hm]].
    + unfold SFmul. destruct Hn as [Hnlo Hnhi].
      change (2 ^ 52) with 4503599627370496 in Hnlo.
      change (2 ^ 53) with 9007199254740992 in Hnhi.
      assert (Hprod : 2 ^ 104 <= Zpos (m * 7036874417766400) < 2 ^ 106).
      { rewrite Pos2Z.inj_mul.
        change (2 ^ 104) with 20282409603651670423947251286016.
        change (2 ^ 106) with 81129638414606681695789005144064. lia. }
      assert (Hd : 105 <= Zdigits2 (Zpos (m * 7036874417766400)) <= 106).
      { split; [apply (Zdigits2_ge _ 104) | apply Zdigits2_le]; lia. }
      destruct (binary_round_aux_faithful (xorb false false)
                  (Zpos (m * 7036874417766400)) (e + -46) loc_Exact)
        as (mp & ep & Hr & _ & Hep & Hv); try lia.
      rewrite Hr. simpl xorb. exists mp, ep.
      set (P := Zpos (m * 7036874417766400)) in *.
      set (K := Zdigits2 P - 53) in *.
      set (j := ep - (e + -46) - K) in *.
      split; [reflexivity|]. split; [lia|].
      assert (Hj : 0 < 2 ^ j) by (apply Z.pow_pos_nonneg; lia).
      assert (HK : 0 < 2 ^ K) by (apply Z.pow_pos_nonneg; unfold K; lia).
      assert (HP : P < 2 ^ K * (100 * 2 ^ (- ep + j))).
      { assert (E : 2 ^ K * (100 * 2 ^ (- ep + j)) = 7036874417766400 * 2 ^ (- e)).
        { replace (2 ^ K * (100 * 2 ^ (- ep + j)))
            with (100 * (2 ^ K * 2 ^ (- ep + j))) by lia.
          rewrite <- Z.pow_add_r by (unfold j, K; lia).
          replace (K + (- ep + j)) with (46 + - e) by (unfold j; lia).
          rewrite Z.pow_add_r by lia. change (2 ^ 46) with 70368744177664. lia. }
        rewrite E. unfold P. rewrite Pos2Z.inj_mul.
        assert (2 ^ 53 <= 2 ^ (- e)) by (apply Z.pow_le_mono_r; lia).
        change (2 ^ 53) with 9007199254740992 in *.
        rewrite (Z.mul_comm (Zpos m)).
        apply Z.mul_lt_mono_pos_l; lia. }
      assert (Hq : P / 2 ^ K < 100 * 2 ^ (- ep + j))
        by (apply Z.div_lt_upper_bound; assumption).
      rewrite Z.pow_add_r in Hq by (unfold j; lia).
      assert (Zpos mp * 2 ^ j <= 100 * 2 ^ (- ep) * 2 ^ j) by lia.
      apply Z.mul_le_mono_pos_r in H; assumption.
    + change (2 ^ 52) with (Zpos 4503599627370496) in Hm. injection Hm as ->.
      exists 7036874417766400%positive, (-46).
      split; [reflexivity|]. split; [lia|].
      change (2 ^ (- -46)) with 70368744177664. lia.
Qed.

Lemma round_half_even_at_most num den k :
  0 < den -> num <= k * den -> PyFloat.round_half_even num den <= k.
Proof.
  intros Hden Hle. unfold PyFloat.round_half_even.
  pose proof (Z.div_mod num den ltac:(lia)) as Hdm.
  pose proof (Z.mod_pos_bound num den Hden) as Hr.
  remember (num / den) as q eqn:Eq. remember (num mod den) as r eqn:Er.
  assert (Hq : q <= k) by nia.
  destruct (Z.compare_spec (2 * r) den) as [Hc|Hc|Hc];
    try destruct (Z.even q); nia.
Qed.

Lemma percent_shown x :
  percent_float x ->
  0 <= PyFloat.shown 0 x <= 100 /\
  PyFloat.format_f 0 x = PyFloat.digits_of (PyFloat.shown 0 x).
Proof.
  intros [->|(m & e & -> & He & Hm)].
  - split; [simpl; lia | reflexivity].
  - split; [|reflexivity]. split; [apply scaled_nonneg|].
    unfold PyFloat.shown, PyFloat.scaled. destruct e as [|k|k]; try lia.
    change (10 ^ Z.of_nat 0) with 1. rewrite Z.mul_1_r.
    apply round_half_even_at_most; [apply Z.pow_pos_nonneg; lia | exact Hm].
Qed.

Lemma megabytes_normal sz :
  (0 < off_val sz)%N ->
  exists m e, megabytes sz = Ret (S754_finite false m e) /\
              PyFloat.normal m /\ -72 <= e <= -9.
Proof.
  intros Hpos. destruct sz as [n Hn]. unfold megabytes. simpl off_val in *.
  apply int_truediv_MiB_normal. change (2 ^ 63) with (Z.of_N (2 ^ 63)). lia.
Qed.

Lemma megabytes_exact sz :
  (0 < off_val sz < 2 ^ 53)%N ->
  exists m e, megabytes sz = Ret (S754_finite false m e) /\
              PyFloat.normal m /\ -72 <= e <= -20 /\
              Zpos m * 2 ^ 20 = Z.of_N (off_val sz) * 2 ^ (- e).
Proof.
  intros [Hpos Hlt].
  destruct (megabytes_normal sz Hpos) as (m & e & Hm & Hn & He).
  destruct (int_truediv_MiB_exact (Z.of_N (off_val sz))) as (m' & e' & Hm' & He' & Hv).
  { change (2 ^ 53) with (Z.of_N (2 ^ 53)). lia. }
  unfold megabytes in Hm. rewrite Hm' in Hm. injection Hm as -> ->.
  exists m, e. unfold megabytes. rewrite Hm'. repeat split; try apply Hn; lia.
Qed.

Lemma megabytes_ordered sz sz' mi ei mo eo :
  (0 < off_val sz' <= off_val sz)%N -> (off_val sz < 2 ^ 53)%N ->
  megabytes sz = Ret (S754_finite false mi ei) ->
  megabytes sz' = Ret (S754_finite false mo eo) ->
  PyFloat.normal mi /\ PyFloat.normal mo /\
  -73 <= ei <= -9 /\ -73 <= eo <= -9 /\
  (eo < ei \/ (eo = ei /\ Zpos mo <= Zpos mi)).
Proof.
  intros [Hpos Hle] Hlt Hi Ho.
  destruct (megabytes_exact sz ltac:(lia)) as (m & e & Hm & Hn & He & Hv).
  destruct (megabytes_exact sz' ltac:(lia)) as (m' & e' & Hm' & Hn' & He' & Hv').
  rewrite Hm in Hi. injection Hi as -> ->.
  rewrite Hm' in Ho. injection Ho as -> ->.
  split; [assumption|]. split; [assumption|]. split; [lia|]. split; [lia|].
  set (n := Z.of_N (off_val sz)) in *. set (k := Z.of_N (off_val sz')) in *.
  assert (Hkn : 0 < k <= n) by (unfold k, n; lia).
  destruct Hn as [Hnlo Hnhi]. destruct Hn' as [Hnlo' Hnhi'].
  change (2 ^ 52) with 4503599627370496 in *.
  change (2 ^ 53) with 9007199254740992 in *.
  change (2 ^ 20) with 1048576 in *.
  assert (HA : 0 < 2 ^ (- eo)) by (apply Z.pow_pos_nonneg; lia).
  destruct (Z_lt_ge_dec ei eo) as [Hbad|Hge].
  - exfalso.
    assert (E : 2 ^ (- ei) = 2 ^ (- eo) * 2 ^ (eo - ei))
      by (rewrite <- Z.pow_add_r by lia; f_equal; lia).
    assert (HB : 2 <= 2 ^ (eo - ei)).
    { change 2 with (2 ^ 1) at 1. apply Z.pow_le_mono_r; lia. }
    rewrite E in Hv.
    assert (k * 2 ^ (- eo) * 2 <= n * 2 ^ (- eo) * 2 ^ (eo - ei)).
    { apply Z.mul_le_mono_nonneg; try lia.
      apply Z.mul_le_mono_nonneg_r; lia. }
    lia.
  - destruct (Z.eq_dec eo ei) as [->|Hne]; [right|left; lia].
    split; [reflexivity|].
    assert (k * 2 ^ (- ei) <= n * 2 ^ (- ei))
      by (apply Z.mul_le_mono_nonneg_r; lia).
    lia.
Qed.

Lemma reduction_percent sz sz' x y :
  (0 < off_val sz < 2 ^ 53)%N -> (off_val sz' <= off_val sz)%N ->
  megabytes sz = Ret x -> megabytes sz' = Ret y ->
  percent_float (reduction_formula y x).
Proof.
  intros Hsz Hle Hx Hy.
  destruct (megabytes_normal sz ltac:(lia)) as (mi & ei & Hi & Hni & Hei).
  rewrite Hi in Hx. injection Hx as <-.
  unfold reduction_formula, PyFloat.mul, PyFloat.sub.
  change (PyFloat.of_int 1) with (S754_finite false 4503599627370496 (-52)).
  change (PyFloat.of_int 100) with (S754_finite false 7036874417766400 (-46)).
  apply (SFmul_hundred_percent (-169)); [lia|].
  apply (SFsub_one_unit (-117)); [lia|].
  destruct (megabytes_total sz') as [[Hz Hy']|[Hpos (mo & eo & Hy')]];
    rewrite Hy' in Hy; injection Hy as <-.
  - left. reflexivity.
  - destruct (megabytes_ordered sz sz' mi ei mo eo) as (H1 & H2 & H3 & H4 & H5);
      try assumption; try lia.
    apply SFdiv_at_most_one; assumption.
Qed.

Lemma reduction_of_equal_sizes sz x :
  (0 < off_val sz)%N -> megabytes sz = Ret x ->
  reduction_formula x x = S754_zero false.
Proof.
  intros Hpos Hx.
  destruct (megabytes_normal sz Hpos) as (m & e & Hm & Hn & He).
  rewrite Hm in Hx. injection Hx as <-.
  unfold reduction_formula. rewrite SFdiv_self by assumption. reflexivity.
Qed.

Local Open Scope string_scope.

(** ** Text *)

Lemma format_0f_finite x :
  PyFloat.is_finite x = true ->
  PyFloat.format_f 0 x =
    PyFloat.sign_of (PyFloat.sign_bit x) ++
    PyFloat.digits_of (Z.abs (PyFloat.shown_int x)).
Proof.
  destruct x as [s|s| |s m e]; try discriminate; intros _.
  - destruct s; reflexivity.
  - pose proof (scaled_nonneg 0 m e) as H.
    unfold PyFloat.format_f, PyFloat.shown_int, PyFloat.shown, PyFloat.sign_bit,
      PyFloat.fixed.
    destruct s; f_equal; f_equal; lia.
Qed.

Lemma prefix_iff a : forall b, String.prefix a b = true <-> exists post, b = a ++ post.
Proof.
  induction a as [|c a IH]; intros b; destruct b as [|c' b]; simpl.
  - split; [intros _; exists ""; reflexivity | reflexivity].
  - split; [intros _; exists (String c' b); reflexivity | reflexivity].
  - split; [discriminate | intros [post H]; discriminate].
  - destruct (ascii_dec c c') as [Heq|Hne].
    + rewrite IH. split; intros [post H]; exists post;
        [subst; reflexivity | inversion H; reflexivity].
    + split; [discriminate | intros [post H]; inversion H; congruence].
Qed.

Lemma contains_unfold hay needle :
  contains hay needle =
  if String.prefix needle hay then true
  else match hay with
       | EmptyString => false
       | String _ rest => contains rest needle
       end.
Proof. destruct hay; reflexivity. Qed.

Lemma contains_iff needle : forall hay,
  contains hay needle = true <-> exists pre post, hay = pre ++ needle ++ post.
Proof.
  induction hay as [|c hay IH]; rewrite contains_unfold.
  - destruct (String.prefix needle "") eqn:Hp.
    + apply prefix_iff in Hp. destruct Hp as [post Hp].
      split; [intros _; exists "", post; exact Hp | reflexivity].
    + split; [discriminate|]. intros (pre & post & H).
      destruct pre; simpl in H.
      * assert (String.prefix needle "" = true) by (apply prefix_iff; eauto). congruence.
      * discriminate.
  - destruct (String.prefix needle (String c hay)) eqn:Hp.
    + apply prefix_iff in Hp. destruct Hp as [post Hp].
      split; [intros _; exists "", post; exact Hp | reflexivity].
    + rewrite IH. split.
      * intros (pre & post & ->). exists (String c pre), post. reflexivity.
      * intros (pre & post & H). destruct pre as [|c' pre]; simpl in H.
        -- assert (String.prefix needle (String c hay) = true) by (apply prefix_iff; eauto).
           congruence.
        -- inversion H. eauto.
Qed.

Lemma append_assoc_3 a b c : (a ++ b) ++ c = a ++ b ++ c.
Proof. induction a; simpl; congruence. Qed.

Lemma append_empty_r s : s ++ "" = s.
Proof. induction s as [|c s IH]; simpl; [reflexivity | rewrite IH; reflexivity]. Qed.

Lemma contains_suffix pre s : contains (pre ++ s) s = true.
Proof.
  apply contains_iff. exists pre, "".
  assert (E : forall t, t ++ "" = t) by (induction t; simpl; congruence).
  rewrite E. reflexivity.
Qed.

(** ** Reading decimals back *)

Lemma of_uint_acc_value d : forall acc,
  Zpos (Pos.of_uint_acc d acc) = uint_value d (Zpos acc).
Proof.
  induction d; intros acc; cbn [Pos.of_uint_acc uint_value]; try reflexivity;
    rewrite IHd; f_equal; rewrite ?Pos2Z.inj_add, Pos2Z.inj_mul; lia.
Qed.

Lemma of_uint_value d : Z.of_N (N.of_uint d) = uint_value d 0.
Proof.
  unfold N.of_uint.
  induction d; cbn [Pos.of_uint uint_value Z.of_N]; try reflexivity;
    try (rewrite of_uint_acc_value; reflexivity).
  exact IHd.
Qed.

Lemma uint_value_to_uint n : uint_value (N.to_uint n) 0 = Z.of_N n.
Proof. rewrite <- of_uint_value, DecimalN.Unsigned.of_to. reflexivity. Qed.

Lemma read_uint d : forall acc started rest,
  read_tenths acc started (NilEmpty.string_of_uint d ++ rest) =
  read_tenths (uint_value d acc) (started || nonempty d) rest.
Proof.
  induction d; intros acc started rest;
    [ simpl; rewrite orb_false_r; reflexivity | .. ];
    cbn [NilEmpty.string_of_uint append read_tenths uint_value nonempty];
    change (Ascii.eqb _ ".") with false;
    match goal with
    | |- context [digit_of ?c] =>
        let v := eval vm_compute in (digit_of c) in change (digit_of c) with v
    end;
    cbv iota; rewrite IHd, orb_true_r; reflexivity.
Qed.

Lemma digit_text k :
  0 <= k < 10 ->
  exists c, PyFloat.digits_of k = String c "" /\ digit_of c = Some k.
Proof.
  intros Hk.
  assert (H : k = 0 \/ k = 1 \/ k = 2 \/ k = 3 \/ k = 4 \/
              k = 5 \/ k = 6 \/ k = 7 \/ k = 8 \/ k = 9) by lia.
  repeat (destruct H as [->|H]; [eexists; split; reflexivity|]).
  subst k. eexists; split; reflexivity.
Qed.

Lemma read_fixed1 n :
  0 <= n -> read_tenths 0 false (PyFloat.fixed 1 n ++ " MB") = Some n.
Proof.
  intros Hn. unfold PyFloat.fixed, PyFloat.decimals.
  change (10 ^ Z.of_nat 1) with 10.
  destruct (digit_text (n mod 10)) as (c & Hc & Hd).
  { apply Z.mod_pos_bound. lia. }
  rewrite Hc. change (PyFloat.zeros (1 - String.length (String c ""))) with "".
  rewrite !append_assoc_3. cbn [append].
  unfold PyFloat.digits_of.
  pose proof (uint_value_to_uint (Z.to_N (n / 10))) as Hv.
  rewrite Z2N.id in Hv by (apply Z.div_pos; lia).
  destruct (N.to_uint (Z.to_N (n / 10))) as [|d|d|d|d|d|d|d|d|d|d] eqn:Hu;
    unfold NilZero.string_of_uint;
    [ cbn [uint_value] in Hv; cbn [append read_tenths];
      change (Ascii.eqb "0" ".") with false; change (digit_of "0") with (Some 0);
      cbv iota; change (Ascii.eqb "." ".") with true; cbv iota;
      rewrite Hd; simpl; f_equal;
      pose proof (Z.div_mod n 10 ltac:(lia)); lia
    | .. ];
    rewrite read_uint; cbn [nonempty orb read_tenths];
    change (Ascii.eqb "." ".") with true; cbv iota;
    rewrite Hd, Hv; simpl; f_equal;
    pose proof (Z.div_mod n 10 ltac:(lia)); lia.
Qed.

Lemma read_size x :
  (exists s, x = S754_zero s /\ s = false) \/ (exists m e, x = S754_finite false m e) ->
  read_tenths 0 false (PyFloat.format_f 1 x ++ " MB") = Some (PyFloat.shown 1 x).
Proof.
  intros [(s & -> & ->)|(m & e & ->)].
  - reflexivity.
  - unfold PyFloat.format_f, PyFloat.shown. cbn [PyFloat.sign_of append].
    apply read_fixed1, scaled_nonneg.
Qed.

(** ** Paths as text *)

Lemma ends_with_sep_app a c b :
  PosixPath.ends_with_sep (a ++ String c b) = PosixPath.ends_with_sep (String c b).
Proof.
  induction a as [|x a IH]; [reflexivity|].
  cbn [append]. cbn [PosixPath.ends_with_sep]. rewrite IH.
  destruct a; reflexivity.
Qed.

Lemma is_empty_app a c b : PosixPath.is_empty (a ++ String c b) = false.
Proof. destruct a; reflexivity. Qed.

Lemma join_under names : forall dir,
  PosixPath.plain_directory dir = true ->
  forallb PosixPath.plain_name names = true ->
  PosixPath.join dir names =
    dir ++ fold_right (fun n rest => "/" ++ n ++ rest) "" names.
Proof.
  induction names as [|n names IH]; intros dir Hdir Hnames.
  - cbn [fold_right]. rewrite append_empty_r. reflexivity.
  - cbn [forallb] in Hnames. apply andb_true_iff in Hnames as [Hn Hnames].
    unfold PosixPath.plain_name in Hn.
    apply andb_true_iff in Hn as [Hn Hend]. apply andb_true_iff in Hn as [Hne Hstart].
    apply negb_true_iff in Hne, Hstart, Hend.
    unfold PosixPath.join in *. cbn [fold_left fold_right].
    unfold PosixPath.plain_directory in Hdir. apply negb_true_iff in Hdir.
    assert (Hstep : PosixPath.join_step dir n = dir ++ "/" ++ n)
      by (unfold PosixPath.join_step; rewrite Hstart, Hdir; reflexivity).
    rewrite Hstep, IH; [| |assumption].
    + rewrite !append_assoc_3. reflexivity.
    + unfold PosixPath.plain_directory. apply negb_true_iff.
      destruct n as [|c n]; [discriminate|].
      change (dir ++ "/" ++ String c n) with (dir ++ String "/" (String c n)).
      rewrite is_empty_app, ends_with_sep_app. cbn [orb].
      change (String "/" (String c n)) with ("/" ++ String c n).
      rewrite ends_with_sep_app. exact Hend.
Qed.

Lemma model_paths_text w :
  PosixPath.plain_directory (project_root w) = true ->
  input_model w =
    project_root w ++ "/app/src/main/assets/models/comictextdetector.pt.onnx" /\
  output_model w =
    project_root w ++ "/app/src/main/assets/models/comictextdetector_quantized.onnx".
Proof.
  intros Hroot. unfold input_model, output_model, models_dir.
  split.
  - change (PosixPath.join (PosixPath.join (project_root w) ?a) ?b)
      with (PosixPath.join (project_root w)
              ["app"; "src"; "main"; "assets"; "models"; "comictextdetector.pt.onnx"]).
    rewrite join_under by (assumption || reflexivity). reflexivity.
  - change (PosixPath.join (PosixPath.join (project_root w) ?a) ?b)
      with (PosixPath.join (project_root w)
              ["app"; "src"; "main"; "assets"; "models"; "comictextdetector_quantized.onnx"]).
    rewrite join_under by (assumption || reflexivity). reflexivity.
Qed.

Lemma append_cancel_l p : forall a b, p ++ a = p ++ b -> a = b.
Proof.
  induction p as [|c p IH]; intros a b H; [exact H|].
  simpl in H. injection H as H. auto.
Qed.

Lemma join_step_cancel dir a b :
  PosixPath.starts_with_sep a = false ->
  PosixPath.starts_with_sep b = false ->
  PosixPath.join_step dir a = PosixPath.join_step dir b -> a = b.
Proof.
  unfold PosixPath.join_step. intros -> -> H.
  destruct (PosixPath.is_empty dir || PosixPath.ends_with_sep dir).
  - exact (append_cancel_l dir a b H).
  - apply append_cancel_l in H. apply (append_cancel_l "/") in H. exact H.
Qed.

Lemma list_ascii_of_string_app a b :
  list_ascii_of_string (a ++ b) = (list_ascii_of_string a ++ list_ascii_of_string b)%list.
Proof. induction a as [|c a IH]; simpl; [reflexivity | rewrite IH; reflexivity]. Qed.

Lemma upto_last_sep_skip l : forall r,
  forallb (fun c => negb (PosixPath.is_sep c)) l = true ->
  PosixPath.upto_last_sep (rev l ++ "/"%char :: r) = ("/"%char :: r)%list.
Proof.
  induction l as [|c l IH] using rev_ind; intros r H; [reflexivity|].
  rewrite forallb_app in H. apply andb_true_iff in H as [Hl Hc].
  simpl in Hc. rewrite andb_true_r in Hc. apply negb_true_iff in Hc.
  rewrite rev_app_distr. simpl. rewrite Hc. apply IH. exact Hl.
Qed.

Lemma ends_with_sep_last s :
  PosixPath.ends_with_sep s =
  match rev (list_ascii_of_string s) with
  | [] => false
  | c :: _ => PosixPath.is_sep c
  end.
Proof.
  induction s as [|c s IH]; [reflexivity|].
  cbn [PosixPath.ends_with_sep list_ascii_of_string rev].
  destruct s as [|c' s]; [reflexivity|].
  rewrite IH. cbn [list_ascii_of_string rev].
  destruct (rev (list_ascii_of_string s) ++ [c'])%list eqn:E; [|reflexivity].
  destruct (rev (list_ascii_of_string s)); discriminate.
Qed.

Lemma dirname_of_join dir name :
  PosixPath.plain_directory dir = true ->
  sep_free name = true ->
  PosixPath.dirname (dir ++ "/" ++ name) = dir.
Proof.
  unfold PosixPath.plain_directory, sep_free. intros Hdir Hname.
  apply negb_true_iff, orb_false_iff in Hdir as [Hne Hend].
  unfold PosixPath.dirname.
  rewrite !list_ascii_of_string_app, !rev_app_distr.
  change (rev (list_ascii_of_string "/")) with ["/"%char].
  rewrite <- app_assoc. cbn [app].
  rewrite upto_last_sep_skip by assumption.
  rewrite ends_with_sep_last in Hend.
  destruct (rev (list_ascii_of_string dir)) as [|c r] eqn:E.
  - destruct dir; [discriminate|].
    apply (f_equal (@List.length ascii)) in E.
    rewrite length_rev in E. discriminate.
  - cbn [PosixPath.strip_seps]. change (PosixPath.is_sep "/") with true. cbv iota.
    cbn [PosixPath.strip_seps]. rewrite Hend.
    rewrite <- E, rev_involutive. apply string_of_list_ascii_of_string.
Qed.

Lemma plain_directory_join dir name :
  PosixPath.plain_name name = true ->
  PosixPath.plain_directory (dir ++ "/" ++ name) = true.
Proof.
  unfold PosixPath.plain_name, PosixPath.plain_directory. intros H.
  apply andb_true_iff in H as [H Hend]. apply andb_true_iff in H as [Hne _].
  apply negb_true_iff in Hne, Hend. apply negb_true_iff.
  destruct name as [|c name]; [discriminate|].
  change (dir ++ "/" ++ String c name) with (dir ++ String "/" (String c name)).
  rewrite is_empty_app, ends_with_sep_app. cbn [orb].
  change (String "/" (String c name)) with ("/" ++ String c name).
  rewrite ends_with_sep_app. exact Hend.
Qed.

Lemma sep_free_plain d :
  sep_free d = true -> PosixPath.is_empty d = false -> PosixPath.plain_name d = true.
Proof.
  unfold sep_free, PosixPath.plain_name. intros Hfree Hne.
  rewrite Hne. cbn [negb andb].
  apply andb_true_iff. split; apply negb_true_iff.
  - destruct d as [|c d]; [discriminate|].
    cbn [list_ascii_of_string forallb] in Hfree.
    apply andb_true_iff in Hfree as [Hc _]. apply negb_true_iff in Hc. exact Hc.
  - rewrite ends_with_sep_last.
    destruct (rev (list_ascii_of_string d)) as [|c r] eqn:E; [reflexivity|].
    assert (Hc : In c (list_ascii_of_string d))
      by (apply in_rev; rewrite E; left; reflexivity).
    rewrite forallb_forall in Hfree. apply Hfree in Hc.
    apply negb_true_iff in Hc. exact Hc.
Qed.

Lemma dirname_top name :
  sep_free name = true -> PosixPath.dirname ("/" ++ name) = "/".
Proof.
  unfold sep_free. intros Hfree. unfold PosixPath.dirname.
  cbn [append list_ascii_of_string rev].
  rewrite (upto_last_sep_skip _ [] Hfree). reflexivity.
Qed.

Lemma paths_of_script w1 w2 :
  script_file w1 = script_file w2 ->
  models_dir w1 = models_dir w2 /\
  input_model w1 = input_model w2 /\ output_model w1 = output_model w2.
Proof.
  unfold input_model, output_model, models_dir, project_root, script_dir.
  intros ->. repeat split.
Qed.

(** ** Two special outputs *)

Lemma megabytes_of_val sz sz' :
  off_val sz = off_val sz' -> megabytes sz = megabytes sz'.
Proof. unfold megabytes. intros ->. reflexivity. Qed.

Lemma reduction_of_empty_output sz sz' x y :
  (0 < off_val sz)%N -> off_val sz' = 0%N ->
  megabytes sz = Ret x -> megabytes sz' = Ret y ->
  PyFloat.format_f 0 (reduction_formula y x) = "100".
Proof.
  intros Hpos Hz Hx Hy.
  destruct (megabytes_normal sz Hpos) as (m & e & Hm & Hn & He).
  rewrite Hm in Hx. injection Hx as <-.
  unfold megabytes in Hy. rewrite Hz in Hy. vm_compute in Hy. injection Hy as <-.
  reflexivity.
Qed.

(** ** Every run follows one path *)

Ltac py_eval :=
  cbv beta iota zeta delta
    [run main bind ret raise lift log print sys_exit try_except
     os_path_exists os_path_getsize quantize_dynamic import_libraries
     expected_call routine_outcome megabytes st_fs st_trace app negb
     is_Exception trace_to_call failure_line].

Ltac py_run_with tac := repeat (progress (py_eval; tac)).

(** Whatever the world, the run ends in one of the seven ways of [ends]:
    [main] has no other path. *)
Theorem run_ends w : ends w (run w).
Proof.
  destruct (import_failure w) as [e|] eqn:Himp.
  - destruct (is_ImportError e) eqn:Hcls.
    + pose proof (ends_missing_dependency w e Himp Hcls) as H.
      match type of H with ends _ ?o => replace (run w) with o; [exact H|] end.
      py_run_with ltac:(rewrite ?Himp, ?Hcls). reflexivity.
    + pose proof (ends_import_crash w e Himp Hcls) as H.
      match type of H with ends _ ?o => replace (run w) with o; [exact H|] end.
      py_run_with ltac:(rewrite ?Himp, ?Hcls). reflexivity.
  - destruct (disk w (input_model w)) as [sz|err] eqn:Hin.
    2:{ pose proof (ends_missing_input w err Himp Hin) as H.
        match type of H with ends _ ?o => replace (run w) with o; [exact H|] end.
        py_run_with ltac:(rewrite ?Himp, ?Hin). reflexivity. }
    destruct (routine_outcome w) as [fs' failure] eqn:Hq.
    assert (Hmb : exists x, megabytes sz = Ret x /\
                    ((off_val sz = 0%N /\ x = S754_zero false) \/
                     ((0 < off_val sz)%N /\ PyFloat.is_zero x = false))).
    { destruct (megabytes_total sz) as [[H0 H]|[Hpos (m & e & H)]]; eauto 8. }
    destruct Hmb as (input_size & Hmb & Hcase).
    destruct failure as [e|].
    { pose proof (ends_routine_raised w sz input_size fs' e Himp Hin Hmb Hq) as H.
      match type of H with ends _ ?o => replace (run w) with o; [exact H|] end.
      revert Hq Hmb. py_eval. intros Hq Hmb.
      py_run_with ltac:(rewrite ?Himp, ?Hin, ?Hmb, ?Hq). reflexivity. }
    destruct (fs' (output_model w)) as [sz'|err] eqn:Hout.
    2:{ pose proof (ends_missing_output w sz input_size fs' err Himp Hin Hmb Hq Hout) as H.
      match type of H with ends _ ?o => replace (run w) with o; [exact H|] end.
      revert Hq Hmb. py_eval. intros Hq Hmb.
      py_run_with ltac:(rewrite ?Himp, ?Hin, ?Hmb, ?Hq, ?Hout). reflexivity. }
    assert (Hmb' : exists y, megabytes sz' = Ret y).
    { destruct (megabytes_total sz') as [[H0 H]|[Hpos (m & e & H)]]; eauto. }
    destruct Hmb' as (output_size & Hmb').
    destruct Hcase as [[Hz ->]|[Hpos Hnz]].
    { pose proof (ends_empty_input w sz fs' sz' output_size Himp Hin Hz Hq Hout Hmb') as H.
      match type of H with ends _ ?o => replace (run w) with o; [exact H|] end.
      revert Hq Hmb Hmb'. py_eval. intros Hq Hmb Hmb'.
      py_run_with ltac:(rewrite ?Himp, ?Hin, ?Hmb, ?Hq, ?Hout, ?Hmb'). reflexivity. }
    pose proof (ends_success w sz input_size fs' sz' output_size
                  Himp Hin Hpos Hmb Hq Hout Hmb') as H.
    match type of H with ends _ ?o => replace (run w) with o; [exact H|] end.
    revert Hq Hmb Hmb'. py_eval. intros Hq Hmb Hmb'.
    py_run_with ltac:(rewrite ?Himp, ?Hin, ?Hmb, ?Hq, ?Hout, ?Hmb').
    unfold PyFloat.truediv. rewrite Hnz. reflexivity.
Qed.

(** Taking a run apart along its path. *)
Ltac paths w :=
  destruct (run_ends w) as
    [e Himp Hcls | e Himp Hcls | err Himp Hin
    | sz input_size fs' e Himp Hin Hmb Hq
    | sz input_size fs' err Himp Hin Hmb Hq Hout
    | sz fs' sz' output_size Himp Hin Hz Hq Hout Hmb'
    | sz input_size fs' sz' output_size Himp Hin Hpos Hmb Hq Hout Hmb'].


(** ** Exit codes *)



(** ** A missing input model *)

(** C2 as stated fails: when neither the library nor the model is there, the
    run stops at the import; it exits with status 1 but prints nothing about
    the input path. *)
Lemma missing_input_unreported_without_library :
  exists_at (disk w_nothing) (input_model w_nothing) = false /\
  ~ (exit_code (run w_nothing) <> 0 /\
     exists line, In line (stdout (trace (run w_nothing))) /\
                  contains line (input_model w_nothing) = true).
Proof.
  split; [reflexivity|].
  intros [_ (line & Hline & Hc)].
  vm_compute in Hline.
  destruct Hline as [<-|[<-|[]]]; vm_compute in Hc; discriminate.
Qed.

(** C2, amended: in every run in which the library imports and the input
    model does not exist at the resolved input path, the program exits with
    status 1 and prints five lines: the first holds the expected input path,
    the others tell where to download the model and where to place it. *)
Theorem missing_input_report w :
  import_failure w = None ->
  exists_at (disk w) (input_model w) = false ->
  exit_code (run w) = 1 /\
  stdout (trace (run w)) =
    [ "❌ Input model not found: " ++ input_model w;
      nl ++ "Please download the model first:";
      "1. Go to: https://github.com/zyddnys/manga-image-translator/releases";
      "2. Download: comictextdetector.pt.onnx";
      "3. Place it in: " ++ models_dir w ] /\
  exists line, In line (stdout (trace (run w))) /\
               contains line (input_model w) = true.
Proof.
  unfold exists_at. intros Hok Hmiss.
  paths w; try congruence; try (rewrite Hin in Hmiss; discriminate).
  simpl. split; [reflexivity|]. split; [reflexivity|].
  exists ("❌ Input model not found: " ++ input_model w).
  split; [left; reflexivity | apply contains_suffix].
Qed.

Lemma witness_missing_input_report :
  exit_code (run w_no_input) = 1 /\
  exists line, In line (stdout (trace (run w_no_input))) /\
               contains line (input_model w_no_input) = true.
Proof.
  pose proof (missing_input_report w_no_input eq_refl eq_refl) as [H1 [_ H3]].
  split; assumption.
Defined.

(** C7: in every run in which the input model is absent the routine is never
    called, and the file system is left as it was. *)
Theorem missing_input_never_quantizes w :
  exists_at (disk w) (input_model w) = false ->
  calls (trace (run w)) = [] /\ final_fs (run w) = disk w.
Proof.
  unfold exists_at. intros Hmiss.
  paths w; try (rewrite Hin in Hmiss; discriminate); split; reflexivity.
Qed.

Lemma witness_missing_input_never_quantizes :
  calls (trace (run w_no_input)) = [] /\ calls (trace (run w_nothing)) = [].
Proof.
  split.
  - exact (proj1 (missing_input_never_quantizes w_no_input eq_refl)).
  - exact (proj1 (missing_input_never_quantizes w_nothing eq_refl)).
Defined.

(** ** The call of the routine *)

(** C5 as stated fails: with the model in place but the library missing, the
    run stops at the import and the routine is not called at all. *)
Lemma no_call_without_library :
  exists_at (disk w_no_library) (input_model w_no_library) = true /\
  calls (trace (run w_no_library)) <> [expected_call w_no_library].
Proof. split; [reflexivity | vm_compute; discriminate]. Qed.

(** C5, amended: in every run in which the library imports and the input
    model exists, the routine is called exactly once, with the input path
    [<root>/app/src/main/assets/models/comictextdetector.pt.onnx], the output
    path [<root>/app/src/main/assets/models/comictextdetector_quantized.onnx]
    and the weight type [QUInt8]; the paths are those [os.path.join] builds
    from the project root, and read as written here whenever the root is not
    [/] itself. *)
Theorem one_call_of_routine w :
  import_failure w = None ->
  exists_at (disk w) (input_model w) = true ->
  calls (trace (run w)) =
    [ mkCall
        (PosixPath.join (project_root w)
           ["app"; "src"; "main"; "assets"; "models";
            "comictextdetector.pt.onnx"])
        (PosixPath.join (project_root w)
           ["app"; "src"; "main"; "assets"; "models";
            "comictextdetector_quantized.onnx"])
        QUInt8 ] /\
  (PosixPath.plain_directory (project_root w) = true ->
   calls (trace (run w)) =
     [ mkCall
         (project_root w ++
          "/app/src/main/assets/models/comictextdetector.pt.onnx")
         (project_root w ++
          "/app/src/main/assets/models/comictextdetector_quantized.onnx")
         QUInt8 ]).
Proof.
  unfold exists_at. intros Hok Hthere.
  assert (Hcalls : calls (trace (run w)) = [expected_call w])
    by (paths w; try congruence; try (rewrite Hin in Hthere; discriminate);
        reflexivity).
  rewrite Hcalls. split; [reflexivity|].
  intros Hroot. destruct (model_paths_text w Hroot) as [Ein Eout].
  unfold expected_call. rewrite Ein, Eout. reflexivity.
Qed.

Lemma witness_one_call_of_routine :
  calls (trace (run w_ok)) = [ mkCall sample_input sample_output QUInt8 ].
Proof. exact (proj2 (one_call_of_routine w_ok eq_refl eq_refl) eq_refl). Defined.



(** ** The two model files *)

(** C8: the script itself only asks whether the input model exists and how
    large the two models are, and hands the paths to the routine; the file
    system at the end of a run is the initial one when the routine was not
    called and the one the routine left otherwise.  So the input model is as
    the routine left it: untouched if the routine does not touch it. *)
Theorem input_model_read_only w :
  Forall (read_only_event w) (trace (run w)) /\
  ((calls (trace (run w)) = [] /\ final_fs (run w) = disk w) \/
   (calls (trace (run w)) = [expected_call w] /\
    final_fs (run w) = fst (routine_outcome w))) /\
  (fst (routine_outcome w) (input_model w) = disk w (input_model w) ->
   final_fs (run w) (input_model w) = disk w (input_model w)).
Proof.
  paths w; simpl; try rewrite Hq; simpl;
    (split; [repeat constructor; simpl; auto|]);
    (split; [first [left; split; reflexivity | right; split; reflexivity] | auto]).
Qed.

Lemma witness_input_model_read_only :
  final_fs (run w_ok) (input_model w_ok) = Stat size_full.
Proof.
  exact (proj2 (proj2 (input_model_read_only w_ok)) eq_refl).
Defined.





(** ** The size report *)

(** C3 as stated fails: a routine that returns an output as large as its
    input (1 MiB each) gives a run that exits with status 0 and prints
    [Size: 1.0 MB] twice. *)
Lemma same_size_output_not_smaller :
  import_failure w_same_size = None /\
  exists_at (disk w_same_size) (input_model w_same_size) = true /\
  snd (routine_outcome w_same_size) = None /\
  printed_sizes (stdout (trace (run w_same_size))) = [Some 10; Some 10] /\
  ~ (exit_code (run w_same_size) = 0 /\
     exists a b,
       printed_sizes (stdout (trace (run w_same_size))) = [Some a; Some b] /\
       b < a).
Proof.
  repeat (split; [reflexivity|]).
  intros [_ (a & b & Hab & Hlt)]. vm_compute in Hab.
  injection Hab as <- <-. lia.
Qed.

(** C3, amended: in every run in which the library imports, the input model
    is there and not empty, and the call of the routine returns leaving a
    file at the output path, the program exits with status 0 and prints two
    sizes, the input's and then the output's.  For a file below 2^53 bytes
    the size printed is its byte count over 2^20, rounded half to even to one
    decimal; so the output size printed is strictly less than the input size
    printed whenever the output file is at least 104858 bytes (a tenth of a
    MB) smaller than the input, and never greater when the output file is no
    larger.  The script itself compares nothing. *)
Theorem size_report w in_bytes after out_bytes :
  import_failure w = None ->
  disk w (input_model w) = Stat in_bytes ->
  (0 < off_val in_bytes)%N ->
  routine_outcome w = (after, None) ->
  after (output_model w) = Stat out_bytes ->
  exit_code (run w) = 0 /\
  exists a b,
    printed_sizes (stdout (trace (run w))) = [Some a; Some b] /\
    ((off_val in_bytes < 2 ^ 53)%N -> a = tenths (off_val in_bytes)) /\
    ((off_val out_bytes < 2 ^ 53)%N -> b = tenths (off_val out_bytes)) /\
    ((off_val in_bytes < 2 ^ 53)%N ->
     ((off_val out_bytes + 104858 <= off_val in_bytes)%N -> b < a) /\
     ((off_val out_bytes <= off_val in_bytes)%N -> b <= a)).
Proof.
  intros Hok Hthere Hnonempty Hret Hleft.
  paths w; try congruence.
  - rewrite Hin in Hthere. injection Hthere as <-. lia.
  - rewrite Hin in Hthere. injection Hthere as <-.
    rewrite Hq in Hret. injection Hret as <-.
    rewrite Hout in Hleft. injection Hleft as <-.
    split; [reflexivity|].
    exists (PyFloat.shown 1 input_size), (PyFloat.shown 1 output_size).
    assert (Ha : forall H : (off_val sz < 2 ^ 53)%N,
              PyFloat.shown 1 input_size = tenths (off_val sz))
      by (intros; apply shown_megabytes; assumption).
    assert (Hb : forall H : (off_val sz' < 2 ^ 53)%N,
              PyFloat.shown 1 output_size = tenths (off_val sz'))
      by (intros; apply shown_megabytes; assumption).
    split.
    { cbn [trace trace_to_call app stdout printed_sizes].
      unfold nl. cbn [strip_prefix append Ascii.eqb Bool.eqb].
      rewrite !read_size by (eapply megabytes_shape; eassumption).
      reflexivity. }
    split; [exact Ha|]. split; [exact Hb|].
    intros Hsmall. split; intros Hle.
    + rewrite Ha, Hb by lia. apply tenths_gap. assumption.
    + rewrite Ha, Hb by lia. apply tenths_mono. assumption.
Qed.

Lemma witness_size_report :
  exit_code (run w_ok) = 0 /\
  printed_sizes (stdout (trace (run w_ok))) = [Some 853; Some 220].
Proof.
  destruct (size_report w_ok size_full _ size_quantized
              eq_refl eq_refl eq_refl eq_refl eq_refl)
    as [Hexit (a & b & Hp & Ha & Hb & _)].
  split; [exact Hexit|].
  rewrite (Ha eq_refl), (Hb eq_refl) in Hp. exact Hp.
Defined.

(** C4: in every successful run the reduction printed is
    [(1 - output_size / input_size) * 100], computed on floats from the sizes
    in MB of the output model (after the call) and of the input model, and
    shown without decimals: the optional sign and the digits of the integer
    nearest to the value of that float. *)
Theorem reported_reduction w :
  exit_code (run w) = 0 ->
  exists sz sz' input_size output_size,
    disk w (input_model w) = Stat sz /\
    final_fs (run w) (output_model w) = Stat sz' /\
    megabytes sz = Ret input_size /\
    megabytes sz' = Ret output_size /\
    let reduction := reduction_formula output_size input_size in
    In ("   Reduction: " ++ PyFloat.format_f 0 reduction ++ "%")
       (stdout (trace (run w))) /\
    PyFloat.format_f 0 reduction =
      PyFloat.sign_of (PyFloat.sign_bit reduction) ++
      PyFloat.digits_of (Z.abs (PyFloat.shown_int reduction)) /\
    (Qabs (inject_Z (PyFloat.shown_int reduction) - PyFloat.value reduction)
       <= 1 # 2)%Q.
Proof.
  paths w; simpl; try discriminate. intros _.
  exists sz, sz', input_size, output_size.
  repeat (split; [assumption|]).
  split; [tauto|].
  split; [|apply shown_int_nearest].
  apply format_0f_finite. eapply reduction_finite; eassumption.
Qed.

Lemma witness_reported_reduction :
  In "   Reduction: 74%" (stdout (trace (run w_ok))).
Proof.
  destruct (reported_reduction w_ok eq_refl)
    as (sz & sz' & x & y & Hsz & Hsz' & Hx & Hy & Hin & _).
  vm_compute in Hsz. injection Hsz as <-.
  vm_compute in Hsz'. injection Hsz' as <-.
  vm_compute in Hx. injection Hx as <-.
  vm_compute in Hy. injection Hy as <-.
  exact Hin.
Defined.

(** ** Failures outside the routine *)

(** X1: when the import of the library raises an [ImportError], the run ends
    with exit code 1 after printing the two lines of the install hint and
    nothing else; it has not looked at the disk, which is as it was. *)
Theorem dependency_check_comes_first w exc :
  import_failure w = Some exc ->
  is_ImportError exc = true ->
  exit_code (run w) = 1 /\
  stdout (trace (run w)) =
    [ "❌ Missing required packages. Install them with:";
      "   pip install onnxruntime onnx" ] /\
  forallb is_print (trace (run w)) = true /\
  final_fs (run w) = disk w.
Proof.
  intros Hfail Hcls'. paths w; try congruence.
  repeat split; reflexivity.
Qed.

Lemma witness_dependency_check_comes_first :
  exit_code (run w_nothing) = 1 /\
  forallb is_print (trace (run w_nothing)) = true.
Proof.
  destruct (dependency_check_comes_first w_nothing no_onnxruntime eq_refl eq_refl)
    as (H1 & _ & H3 & _).
  split; assumption.
Defined.



(** X3: when the routine returns without raising but leaves no file at the
    output path, the run fails: exit code 1, the last line printed is the
    failure line with the text of the [OSError] of [getsize], and the
    completion is not reported. *)
Theorem missing_output_is_a_failure w in_bytes after text :
  import_failure w = None ->
  disk w (input_model w) = Stat in_bytes ->
  routine_outcome w = (after, None) ->
  after (output_model w) = NoStat text ->
  exit_code (run w) = 1 /\
  last (stdout (trace (run w))) "" = nl ++ "❌ Quantization failed: " ++ text /\
  ~ succeeds (run w).
Proof.
  intros Hok Hthere Hret Hgone.
  paths w; try congruence; rewrite Hq in Hret; injection Hret as <-; try congruence.
  rewrite Hout in Hgone. injection Hgone as <-.
  split; [reflexivity|]. split; [reflexivity|].
  unfold succeeds, failure_line, trace_to_call, nl. simpl.
  intuition discriminate.
Qed.

Lemma witness_missing_output_is_a_failure :
  exit_code (run w_no_output) = 1.
Proof.
  exact (proj1 (missing_output_is_a_failure w_no_output size_full _ _
                  eq_refl eq_refl eq_refl eq_refl)).
Defined.

(** X4: the script itself changes nothing on the disk: after a run without
    a call of the routine the disk is as it was, and after a run with a call
    it is as the routine left it, also when the run fails (an output written
    before the failure is not removed). *)
Theorem disk_changes_only_by_routine w :
  final_fs (run w) =
    match calls (trace (run w)) with
    | [] => disk w
    | _ :: _ => fst (routine_outcome w)
    end.
Proof.
  paths w; simpl; try reflexivity; rewrite Hq; reflexivity.
Qed.

(** ** Where the models are looked for *)

(** X5: the output path is never the input path, wherever the script
    lies: the routine is not asked to write over the model it reads. *)
Theorem model_paths_differ w : input_model w <> output_model w.
Proof.
  unfold input_model, output_model, PosixPath.join. cbn [fold_left]. intros H.
  apply join_step_cancel in H; [discriminate | reflexivity | reflexivity].
Qed.

(** X6: for a script at [root/d/f], the project root is [root] and both
    models lie under [root/app/src/main/assets/models], whatever the names
    of the directory [d] and of the file [f] of the script. *)
Theorem models_in_project w root d f :
  PosixPath.plain_directory root = true ->
  sep_free d = true -> PosixPath.is_empty d = false ->
  sep_free f = true ->
  script_file w = root ++ "/" ++ d ++ "/" ++ f ->
  project_root w = root /\
  input_model w =
    root ++ "/app/src/main/assets/models/comictextdetector.pt.onnx" /\
  output_model w =
    root ++ "/app/src/main/assets/models/comictextdetector_quantized.onnx".
Proof.
  intros Hroot Hd Hne Hf Hfile.
  assert (Hpr : project_root w = root).
  { unfold project_root, script_dir. rewrite Hfile.
    replace (root ++ "/" ++ d ++ "/" ++ f) with ((root ++ "/" ++ d) ++ "/" ++ f)
      by (rewrite !append_assoc_3; reflexivity).
    rewrite dirname_of_join; [|apply plain_directory_join, sep_free_plain|]; try assumption.
    apply dirname_of_join; assumption. }
  split; [exact Hpr|].
  rewrite <- Hpr. apply model_paths_text. rewrite Hpr. exact Hroot.
Qed.

Lemma witness_models_in_project :
  input_model w_ok = sample_input /\ output_model w_ok = sample_output.
Proof.
  exact (proj2 (models_in_project w_ok "/home/dev/MangaAutoScroller" "scripts"
                  "quantize_model.py" eq_refl eq_refl eq_refl eq_refl eq_refl)).
Defined.

(** X7: for a script in a directory right under [/], or in [/] itself, the
    project root is [/] and the model paths start with one separator, not
    two. *)
Theorem models_of_top_level_script w d f :
  sep_free d = true -> PosixPath.is_empty d = false ->
  sep_free f = true ->
  script_file w = "/" ++ d ++ "/" ++ f \/ script_file w = "/" ++ f ->
  project_root w = "/" /\
  input_model w = "/app/src/main/assets/models/comictextdetector.pt.onnx" /\
  output_model w = "/app/src/main/assets/models/comictextdetector_quantized.onnx".
Proof.
  intros Hd Hne Hf Hfile.
  assert (Hpr : project_root w = "/").
  { unfold project_root, script_dir. destruct Hfile as [Hfile|Hfile]; rewrite Hfile.
    - replace ("/" ++ d ++ "/" ++ f) with (("/" ++ d) ++ "/" ++ f)
        by (rewrite !append_assoc_3; reflexivity).
      rewrite dirname_of_join; [apply dirname_top; assumption| |assumption].
      pose proof (sep_free_plain d Hd Hne) as Hp.
      unfold PosixPath.plain_name in Hp.
      apply andb_true_iff in Hp as [_ Hend].
      unfold PosixPath.plain_directory.
      destruct d as [|c d]; [discriminate|].
      change ("/" ++ String c d) with (String "/" (String c d)).
      cbn [PosixPath.is_empty orb].
      change (String "/" (String c d)) with ("/" ++ String c d).
      rewrite ends_with_sep_app. exact Hend.
    - rewrite dirname_top by assumption. reflexivity. }
  split; [exact Hpr|].
  unfold input_model, output_model, models_dir. rewrite Hpr. split; reflexivity.
Qed.

Lemma witness_models_of_top_level_script :
  input_model (mkWorld "/scripts/quantize_model.py" None empty_disk writes_nothing)
    = "/app/src/main/assets/models/comictextdetector.pt.onnx".
Proof.
  exact (proj1 (proj2 (models_of_top_level_script
                  (mkWorld "/scripts/quantize_model.py" None empty_disk writes_nothing)
                  "scripts" "quantize_model.py" eq_refl eq_refl eq_refl
                  (or_introl eq_refl)))).
Defined.

(** ** The numbers of the report *)

(** X8: every size line of every run reads back as a number with one
    decimal that is not negative: no size is printed as [nan], [inf] or below
    zero. *)
Theorem size_lines_are_decimals w :
  forallb is_size (printed_sizes (stdout (trace (run w)))) = true.
Proof.
  assert (Hnn : forall x, Z.leb 0 (PyFloat.shown 1 x) = true).
  { intros x. apply Z.leb_le. destruct x; try (simpl; lia). apply scaled_nonneg. }
  paths w; try reflexivity.
  - assert (E : printed_sizes (stdout (trace
                  {| exit_code := 1;
                     trace := trace_to_call w input_size ++ [EvPrint (failure_line e)];
                     final_fs := fs'; traceback := None |}))
                = [Some (PyFloat.shown 1 input_size)]).
    { cbn [trace trace_to_call app stdout printed_sizes failure_line].
      unfold nl. cbn [strip_prefix append Ascii.eqb Bool.eqb].
      rewrite !read_size by (eapply megabytes_shape; eassumption). reflexivity. }
    rewrite E. cbn [forallb is_size]. rewrite Hnn. reflexivity.
  - assert (E : printed_sizes (stdout (trace
                  {| exit_code := 1;
                     trace := trace_to_call w input_size ++
                       [EvGetsize (output_model w);
                        EvPrint (failure_line (mkExn OSError err))];
                     final_fs := fs'; traceback := None |}))
                = [Some (PyFloat.shown 1 input_size)]).
    { cbn [trace trace_to_call app stdout printed_sizes failure_line].
      unfold nl. cbn [strip_prefix append Ascii.eqb Bool.eqb].
      rewrite !read_size by (eapply megabytes_shape; eassumption). reflexivity. }
    rewrite E. cbn [forallb is_size]. rewrite Hnn. reflexivity.
  - assert (E : printed_sizes (stdout (trace
                  {| exit_code := 0;
                     trace := trace_to_call w input_size ++
                       [EvGetsize (output_model w);
                        EvPrint (nl ++ "✅ Quantization complete!");
                        EvPrint ("📤 Output model: " ++ output_model w);
                        EvPrint ("   Size: " ++ PyFloat.format_f 1 output_size ++ " MB");
                        EvPrint ("   Reduction: " ++
                                 PyFloat.format_f 0 (reduction_formula output_size input_size)
                                 ++ "%");
                        EvPrint (nl ++ "🎉 The app will automatically use the quantized model!")];
                     final_fs := fs'; traceback := None |}))
                = [Some (PyFloat.shown 1 input_size); Some (PyFloat.shown 1 output_size)]).
    { cbn [trace trace_to_call app stdout printed_sizes].
      unfold nl. cbn [strip_prefix append Ascii.eqb Bool.eqb].
      rewrite !read_size by (eapply megabytes_shape; eassumption). reflexivity. }
    rewrite E. cbn [forallb is_size]. rewrite !Hnn. reflexivity.
Qed.

(** X9: when the output model is no larger than the input model (an input
    of less than [2 ^ 53] bytes, not empty), the run succeeds and the
    reduction it prints is a whole number from 0 to 100, without sign. *)
Theorem reduction_is_a_percentage w in_bytes after out_bytes :
  import_failure w = None ->
  disk w (input_model w) = Stat in_bytes ->
  (0 < off_val in_bytes < 2 ^ 53)%N ->
  routine_outcome w = (after, None) ->
  after (output_model w) = Stat out_bytes ->
  (off_val out_bytes <= off_val in_bytes)%N ->
  exit_code (run w) = 0 /\
  exists k, 0 <= k <= 100 /\
    In ("   Reduction: " ++ PyFloat.digits_of k ++ "%") (stdout (trace (run w))).
Proof.
  intros Hok Hthere Hsize Hret Hwritten Hle.
  paths w; try congruence; rewrite Hq in Hret; injection Hret as <-; try congruence.
  - rewrite Hin in Hthere. injection Hthere as <-. lia.
  - rewrite Hin in Hthere. injection Hthere as <-.
    rewrite Hout in Hwritten. injection Hwritten as <-.
    split; [reflexivity|].
    destruct (percent_shown (reduction_formula output_size input_size)) as [Hk Hf].
    { eapply reduction_percent; eassumption. }
    exists (PyFloat.shown 0 (reduction_formula output_size input_size)).
    split; [exact Hk|]. rewrite <- Hf. simpl. tauto.
Qed.

Lemma witness_reduction_is_a_percentage :
  exit_code (run w_ok) = 0.
Proof.
  refine (proj1 (reduction_is_a_percentage w_ok size_full _ size_quantized
                   eq_refl eq_refl _ eq_refl eq_refl _)).
  - split; reflexivity.
  - vm_compute. discriminate.
Defined.

(** X10: when the output model has exactly the size of the input model, the
    run succeeds and reports a reduction of 0%. *)
Theorem same_size_reports_zero w in_bytes after out_bytes :
  import_failure w = None ->
  disk w (input_model w) = Stat in_bytes ->
  (0 < off_val in_bytes)%N ->
  routine_outcome w = (after, None) ->
  after (output_model w) = Stat out_bytes ->
  off_val out_bytes = off_val in_bytes ->
  exit_code (run w) = 0 /\
  In "   Reduction: 0%" (stdout (trace (run w))).
Proof.
  intros Hok Hthere Hsize Hret Hwritten Hsame.
  paths w; try congruence; rewrite Hq in Hret; injection Hret as <-; try congruence.
  - rewrite Hin in Hthere. injection Hthere as <-. lia.
  - rewrite Hin in Hthere. injection Hthere as <-.
    rewrite Hout in Hwritten. injection Hwritten as <-.
    split; [reflexivity|].
    rewrite (megabytes_of_val _ _ Hsame), Hmb in Hmb'. injection Hmb' as <-.
    simpl. rewrite (reduction_of_equal_sizes sz input_size Hpos Hmb). simpl. tauto.
Qed.

Lemma witness_same_size_reports_zero :
  In "   Reduction: 0%" (stdout (trace (run w_same_size))).
Proof.
  exact (proj2 (same_size_reports_zero w_same_size size_1MiB _ size_1MiB
                  eq_refl eq_refl eq_refl eq_refl eq_refl eq_refl)).
Defined.

(** X11: an empty output file is no failure: when the routine leaves an
    output model of 0 bytes for an input that is not empty, the run succeeds
    and reports a size of 0.0 MB and a reduction of 100%. *)
Theorem empty_output_reports_full_reduction w in_bytes after out_bytes :
  import_failure w = None ->
  disk w (input_model w) = Stat in_bytes ->
  (0 < off_val in_bytes)%N ->
  routine_outcome w = (after, None) ->
  after (output_model w) = Stat out_bytes ->
  off_val out_bytes = 0%N ->
  exit_code (run w) = 0 /\
  In "   Size: 0.0 MB" (stdout (trace (run w))) /\
  In "   Reduction: 100%" (stdout (trace (run w))).
Proof.
  intros Hok Hthere Hsize Hret Hwritten Hempty.
  paths w; try congruence; rewrite Hq in Hret; injection Hret as <-; try congruence.
  - rewrite Hin in Hthere. injection Hthere as <-. lia.
  - rewrite Hin in Hthere. injection Hthere as <-.
    rewrite Hout in Hwritten. injection Hwritten as <-.
    split; [reflexivity|].
    rewrite (reduction_of_empty_output sz sz' input_size output_size) by assumption.
    unfold megabytes in Hmb'. rewrite Hempty in Hmb'. vm_compute in Hmb'.
    injection Hmb' as <-.
    split; simpl; tauto.
Qed.

Lemma witness_empty_output_reports_full_reduction :
  In "   Reduction: 100%"
    (stdout (trace (run (mkWorld sample_script None (disk_with_input size_full)
                           (writes_output size_zero))))).
Proof.
  exact (proj2 (proj2 (empty_output_reports_full_reduction
                  (mkWorld sample_script None (disk_with_input size_full)
                     (writes_output size_zero))
                  size_full _ size_zero
                  eq_refl eq_refl eq_refl eq_refl eq_refl eq_refl))).
Defined.

(** ** What a run depends on *)

(** X12: what a run prints, asks of the disk and hands to the routine, and
    its exit code, are fixed by the place of the script, the outcome of the
    import, the file at the input path, whether the routine raises and the
    file at the output path after the call. A file already at the output
    path before the call is not looked at by the script. *)
Theorem run_reads_input_and_routine_only w1 w2 :
  script_file w1 = script_file w2 ->
  import_failure w1 = import_failure w2 ->
  disk w1 (input_model w1) = disk w2 (input_model w2) ->
  snd (routine_outcome w1) = snd (routine_outcome w2) ->
  fst (routine_outcome w1) (output_model w1) =
    fst (routine_outcome w2) (output_model w2) ->
  exit_code (run w1) = exit_code (run w2) /\
  trace (run w1) = trace (run w2).
Proof.
  intros Hfile Himport Hinput Hraised Hwritten.
  destruct (paths_of_script w1 w2 Hfile) as (Hm & Hi & Ho).
  destruct (run_ends w1) as
    [e Himp Hcls | e Himp Hcls | err Himp Hin
    | sz input_size fs' e Himp Hin Hmb Hq
    | sz input_size fs' err Himp Hin Hmb Hq Hout
    | sz fs' sz' output_size Himp Hin Hz Hq Hout Hmb'
    | sz input_size fs' sz' output_size Himp Hin Hpos Hmb Hq Hout Hmb'];
  destruct (run_ends w2) as
    [e2 Himp2 Hcls2 | e2 Himp2 Hcls2 | err2 Himp2 Hin2
    | sz2 input_size2 fs2 e2 Himp2 Hin2 Hmb2 Hq2
    | sz2 input_size2 fs2 err2 Himp2 Hin2 Hmb2 Hq2 Hout2
    | sz2 fs2 sz2' output_size2 Himp2 Hin2 Hz2 Hq2 Hout2 Hmb2'
    | sz2 input_size2 fs2 sz2' output_size2 Himp2 Hin2 Hpos2 Hmb2 Hq2 Hout2 Hmb2'];
  try congruence;
  try (rewrite Hq, Hq2 in Hraised, Hwritten; cbn [fst snd] in Hraised, Hwritten;
       try congruence).
  all: cbn [exit_code trace]; unfold trace_to_call, expected_call.
  all: rewrite ?Hi, ?Ho, ?Hm.
  all: try (split; reflexivity).
  all: try (rewrite Hin, Hin2 in Hinput; injection Hinput as ->).
  all: try (exfalso; lia).
  all: rewrite ?Hout, ?Hout2 in Hwritten.
  all: try congruence.
  all: repeat match goal with
       | Ha : ?t = Ret ?x, Hb : ?t = Ret ?y |- _ =>
           assert (x = y) by congruence; subst y; clear Hb
       end.
  all: try (injection Hraised as ->).
  all: try (injection Hwritten as ->).
  all: repeat match goal with
       | Ha : ?t = Ret ?x, Hb : ?t = Ret ?y |- _ =>
           assert (x = y) by congruence; subst y; clear Hb
       end.
  all: split; reflexivity.
Qed.

Lemma witness_run_reads_input_and_routine_only :
  trace (run (mkWorld sample_script None
                (fun p => if String.eqb p sample_output then Stat size_full
                          else disk_with_input size_full p)
                (writes_output size_quantized)))
  = trace (run w_ok).
Proof.
  exact (proj2 (run_reads_input_and_routine_only _ w_ok
                  eq_refl eq_refl eq_refl eq_refl eq_refl)).
Defined.
